(** * pytools.persistent_dict: persistent hashing and persistent dictionaries

    A shallow embedding of [src/pytools/persistent_dict.py]:

    - [KeyBuilder]: the persistent hash of a Python object ([rec],
      [__call__] and the [update_for_*] methods);
    - [Sqlite]: the one table [dict (key text NOT NULL PRIMARY KEY, value)]
      and the statements the module executes on it;
    - [PersistentDict] and [WriteOncePersistentDict], the latter with the
      [functools.lru_cache] that wraps its [_fetch].

    Python objects are immutable trees here, a hash object is the data fed
    to it so far, an exception is a value of [exn], and a method that can
    raise returns a [result]. *)

From Stdlib Require Import ZArith List String Ascii Lia Bool Permutation Sorted.
From coqutil Require Import Byte Word.LittleEndianList.
From Equations Require Import Equations.
Import ListNotations.
Local Open Scope string_scope.
Local Open Scope list_scope.
Local Open Scope Z_scope.

(** ** Python objects *)

Definition bytes := list byte.

(** What [rec] asks of [type(key)]: its names, and the answers of
    [issubclass(tp, Enum)], [is_dataclass(tp)], [attrs.has(tp)],
    [isinstance(key, np.dtype)] and [isinstance(key, np.number)]. *)
Record pytype : Type := {
  tp_module : string;
  tp_qualname : string;
  tp_name : string;
  tp_is_enum : bool;
  tp_is_dataclass : bool;
  tp_has_attrs : bool;
  tp_is_np_dtype : bool;
  tp_is_np_number : bool }.

(** What the updaters read from the object itself. *)
Inductive pybody (A : Type) : Type :=
| BNone
| BBool (b : bool)
| BInt (n : Z)
| BFloat (hex : string)                      (* key.hex() *)
| BComplex (repr : string)                   (* repr(key) *)
| BStr (s : string)                          (* the text, as its UTF-8 encoding *)
| BBytes (b : bytes)
| BSeq (items : list A)                      (* tuple, frozenset: iteration order *)
| BMapping (items : list (A * A))            (* key.items(), iteration order *)
| BClass (module qualname name : string)     (* a class: isinstance(key, type) *)
| BEnum (label : string)                     (* str(key) of an Enum member *)
| BFields (flds : list (string * A))         (* fld.name, getattr(key, fld.name, None) *)
| BDtype (str : string)                      (* key.str of a numpy dtype *)
| BScalar (raw : bytes)                      (* what update_for_numpy_scalar feeds *)
| BOpaque.

Arguments BNone {A}.
Arguments BBool {A} b.
Arguments BInt {A} n.
Arguments BFloat {A} hex.
Arguments BComplex {A} repr.
Arguments BStr {A} s.
Arguments BBytes {A} b.
Arguments BSeq {A} items.
Arguments BMapping {A} items.
Arguments BClass {A} module qualname name.
Arguments BFields {A} flds.
Arguments BEnum {A} label.
Arguments BDtype {A} str.
Arguments BScalar {A} raw.
Arguments BOpaque {A}.

(** An object: its type, the attribute [_pytools_persistent_hash_digest]
    when it has one, its method [update_persistent_hash] when it has one,
    and its content.  The method is the sequence of its calls
    [key_hash.update(data)] ([inl data]) and
    [key_builder.rec(key_hash, obj)] ([inr obj]). *)
#[local] Set Warnings "-register-all".
Inductive pyobj : Type :=
| Obj (tp : pytype)
      (memo : option bytes)
      (hook : option (list (bytes + pyobj)))
      (body : pybody pyobj).

Definition type_of (key : pyobj) : pytype := let (tp, _, _, _) := key in tp.
Definition memo_of (key : pyobj) : option bytes := let (_, memo, _, _) := key in memo.
Definition hook_of (key : pyobj) := let (_, _, hook, _) := key in hook.
Definition body_of (key : pyobj) : pybody pyobj := let (_, _, _, body) := key in body.

(** [isinstance(key, type)] *)
Definition is_type (key : pyobj) : bool :=
  match body_of key with BClass _ _ _ => true | _ => false end.

Definition builtin (name : string) : pytype :=
  {| tp_module := "builtins"; tp_qualname := name; tp_name := name;
     tp_is_enum := false; tp_is_dataclass := false; tp_has_attrs := false;
     tp_is_np_dtype := false; tp_is_np_number := false |}.

Definition PyNone : pyobj := Obj (builtin "NoneType") None None BNone.
Definition PyBool (b : bool) : pyobj := Obj (builtin "bool") None None (BBool b).
Definition PyInt (n : Z) : pyobj := Obj (builtin "int") None None (BInt n).
Definition PyFloat (hex : string) : pyobj := Obj (builtin "float") None None (BFloat hex).
Definition PyComplex (repr : string) : pyobj :=
  Obj (builtin "complex") None None (BComplex repr).
Definition PyStr (s : string) : pyobj := Obj (builtin "str") None None (BStr s).
Definition PyBytes (b : bytes) : pyobj := Obj (builtin "bytes") None None (BBytes b).
Definition PyTuple (items : list pyobj) : pyobj :=
  Obj (builtin "tuple") None None (BSeq items).
Definition PyFrozenset (items : list pyobj) : pyobj :=
  Obj (builtin "frozenset") None None (BSeq items).

(** A mapping of a class named [tname] ([frozendict], [immutabledict], ...). *)
Definition mapping_type (tname : string) : pytype :=
  {| tp_module := tname; tp_qualname := tname; tp_name := tname;
     tp_is_enum := false; tp_is_dataclass := false; tp_has_attrs := false;
     tp_is_np_dtype := false; tp_is_np_number := false |}.

Definition PyMapping (tname : string) (items : list (pyobj * pyobj)) : pyobj :=
  Obj (mapping_type tname) None None (BMapping items).

(** ** Exceptions and results *)

Inductive exn : Type :=
| TypeError (msg : string)
| NoSuchEntryError (key : pyobj)
| ReadOnlyEntryError (msg : string)
| KeyError
| IntegrityError
| OverflowError
| AttributeError.

Inductive result (A : Type) : Type :=
| Ok (a : A)
| Raise (e : exn).

Arguments Ok {A} a.
Arguments Raise {A} e.

Definition bind {A B : Type} (r : result A) (k : A -> result B) : result B :=
  match r with
  | Ok a => k a
  | Raise e => Raise e
  end.

Notation "x <- r ;; k" := (bind r (fun x => k))
  (at level 61, r at next level, right associativity).

(** ** Bytes and text *)

(** [str.encode("utf8")]: text is kept as its encoding. *)
Definition encode (s : string) : bytes := list_byte_of_string s.

Definition hex_digit (n : N) : ascii :=
  ascii_of_N (if (n <? 10)%N then 48 + n else 87 + n).

(** [bytes.hex()]: two lowercase digits for each byte. *)
Fixpoint hex (b : bytes) : string :=
  match b with
  | [] => EmptyString
  | x :: b' =>
      String (hex_digit (Byte.to_N x / 16))
        (String (hex_digit (Byte.to_N x mod 16)) (hex b'))
  end.

(** [int.to_bytes(sz, byteorder="little", signed=True)] for [sz >= 1]. *)
Definition int_to_bytes (key : Z) (sz : positive) : result bytes :=
  if (- 2 ^ (8 * Z.pos sz - 1) <=? key) && (key <? 2 ^ (8 * Z.pos sz - 1))
  then Ok (le_split (Pos.to_nat sz) key)
  else Raise OverflowError.

(** ** Hash objects *)

(** What the module takes from the interpreter it runs in: the algorithm
    behind [hashlib.sha256] as the digest of a message, the size of its
    digests, whether numpy is in [sys.modules], and [_HAS_ATTRS]. *)
Class Env : Type := {
  sha256 : bytes -> bytes;
  digest_size : nat;
  numpy_loaded : bool;
  HAS_ATTRS : bool }.

(** The protocol [Hash]: an object of [hashlib] is the data fed so far. *)
Record Hash : Type := { fed : bytes }.

Section Hashing.
Context {env : Env}.

Definition new_hash : Hash := {| fed := [] |}.

Definition hash_update (h : Hash) (data : bytes) : Hash :=
  {| fed := fed h ++ data |}.

Definition hash_digest (h : Hash) : bytes := sha256 (fed h).

Definition hash_hexdigest (h : Hash) : string := hex (hash_digest h).

Definition hash_copy (h : Hash) : Hash := h.

(** Modelled from the spec: [pytools.unordered_hash] is imported by
    [update_for_frozenset] and [update_for_frozendict] and is not among
    the sources.  The spec asks for a commutative, order-insensitive
    combiner of the sub-digests and names the XOR-fold: the sub-digests
    are read as integers, folded with exclusive or, and the result is fed
    to the hash at the width of a digest. *)
Definition unordered_hash (hash_instance : Hash) (digests : list bytes) : Hash :=
  let h_int := fold_left Z.lxor (map le_combine digests) 0 in
  hash_update hash_instance (le_split digest_size h_int).

End Hashing.

(** ** KeyBuilder *)

(** A value together with the equation that names it, for the [try] of
    [update_for_int]. *)
Definition inspect {A : Type} (a : A) : {b : A | a = b} := exist _ a eq_refl.

Module KeyBuilder.
Section KeyBuilder.
Context {env : Env}.

(** The methods [update_for_<tname>] of the class; the aliases
    ([update_for_ABCMeta], [update_for_FrozenOrderedSet],
    [update_for_immutabledict], ...) are the method they name. *)
Inductive updater : Type :=
| for_type | for_int | for_enum | for_bool | for_float | for_complex
| for_str | for_bytes | for_tuple | for_frozenset | for_NoneType
| for_dtype | for_specific_dtype | for_numpy_scalar | for_dataclass
| for_attrs | for_frozendict.

(** [getattr(self, "update_for_" + tname)]; [None] is [AttributeError]. *)
Definition getattr_update_for (tname : string) : option updater :=
  if String.eqb tname "type" then Some for_type
  else if String.eqb tname "ABCMeta" then Some for_type
  else if String.eqb tname "int" then Some for_int
  else if String.eqb tname "enum" then Some for_enum
  else if String.eqb tname "bool" then Some for_bool
  else if String.eqb tname "float" then Some for_float
  else if String.eqb tname "complex" then Some for_complex
  else if String.eqb tname "str" then Some for_str
  else if String.eqb tname "bytes" then Some for_bytes
  else if String.eqb tname "tuple" then Some for_tuple
  else if String.eqb tname "frozenset" then Some for_frozenset
  else if String.eqb tname "FrozenOrderedSet" then Some for_frozenset
  else if String.eqb tname "NoneType" then Some for_NoneType
  else if String.eqb tname "dtype" then Some for_dtype
  else if String.eqb tname "specific_dtype" then Some for_specific_dtype
  else if String.eqb tname "numpy_scalar" then Some for_numpy_scalar
  else if String.eqb tname "dataclass" then Some for_dataclass
  else if String.eqb tname "attrs" then Some for_attrs
  else if String.eqb tname "frozendict" then Some for_frozendict
  else if String.eqb tname "immutabledict" then Some for_frozendict
  else if String.eqb tname "constantdict" then Some for_frozendict
  else if String.eqb tname "PMap" then Some for_frozendict
  else if String.eqb tname "Map" then Some for_frozendict
  else None.

(** [tname.startswith("dtype[")] and [tname.endswith("DType")] *)
Definition startswith (s p : string) : bool := String.prefix p s.

Definition endswith (s p : string) : bool :=
  let n := String.length s in
  let m := String.length p in
  (m <=? n)%nat && String.eqb (String.substring (n - m) m s) p.

(** The method [rec] selects once [update_for_<tname>] is missing. *)
Definition fallback_method (tp : pytype) : option updater :=
  let tname := tp_name tp in
  let method :=
    if numpy_loaded then
      if startswith tname "dtype[" || endswith tname "DType" then
        if tp_is_np_dtype tp then Some for_specific_dtype else None
      else if tp_is_np_number tp then Some for_numpy_scalar
      else None
    else None in
  match method with
  | Some m => Some m
  | None =>
      if tp_is_enum tp then Some for_enum
      else if tp_is_dataclass tp then Some for_dataclass
      else if HAS_ATTRS && tp_has_attrs tp then Some for_attrs
      else None
  end.

Definition select_method (tp : pytype) : option updater :=
  match getattr_update_for (tp_name tp) with
  | Some m => Some m
  | None => fallback_method tp
  end.

(** [f"{type(key)}"] *)
Definition type_repr (tp : pytype) : string :=
  if String.eqb (tp_module tp) "builtins"
  then ("<class '" ++ tp_qualname tp ++ "'>")%string
  else ("<class '" ++ tp_module tp ++ "." ++ tp_qualname tp ++ "'>")%string.

Definition unsupported (tp : pytype) : exn :=
  TypeError ("unsupported type for persistent hash keying: " ++ type_repr tp)%string.

(** *** The updaters that do not call [rec] *)

Definition update_for_type (key_hash : Hash) (key : pyobj) : result Hash :=
  match body_of key with
  | BClass module qualname name =>
      Ok (hash_update key_hash (encode (module ++ "." ++ qualname ++ "." ++ name)%string))
  | _ => Raise AttributeError
  end.

Equations update_for_int_loop (key_hash : Hash) (key : Z) (sz : positive)
  : result Hash
  by wf (Z.to_nat (Z.log2 (Z.abs key) + 2 - 8 * Z.pos sz)) lt :=
  update_for_int_loop key_hash key sz with inspect (int_to_bytes key sz) => {
    | exist _ (Ok data) _ := Ok (hash_update key_hash data)
    | exist _ (Raise OverflowError) _ := update_for_int_loop key_hash key (2 * sz)
    | exist _ (Raise e) _ := Raise e }.
Next Obligation.
  unfold int_to_bytes in *.
  match goal with
  | H : (if ?c then _ else _) = _ |- _ => destruct c eqn:E; [discriminate H|]
  end.
  assert (2 ^ (8 * Z.pos sz - 1) <= Z.abs key).
  { apply andb_false_iff in E.
    destruct E as [E|E]; [apply Z.leb_gt in E | apply Z.ltb_ge in E]; lia. }
  assert (8 * Z.pos sz - 1 <= Z.log2 (Z.abs key)) by (apply Z.log2_le_pow2; lia).
  lia.
Qed.

Definition update_for_int (key_hash : Hash) (key : pyobj) : result Hash :=
  match body_of key with
  | BInt n => update_for_int_loop key_hash n 8
  | _ => Raise AttributeError
  end.

Definition update_for_str (key_hash : Hash) (key : string) : Hash :=
  hash_update key_hash (encode key).

Definition update_for_enum (key_hash : Hash) (key : pyobj) : result Hash :=
  match body_of key with
  | BEnum label => Ok (update_for_str key_hash label)
  | _ => Raise AttributeError
  end.

Definition update_for_bool (key_hash : Hash) (key : pyobj) : result Hash :=
  match body_of key with
  | BBool b => Ok (hash_update key_hash (encode (if b then "True" else "False")))
  | _ => Raise AttributeError
  end.

Definition update_for_float (key_hash : Hash) (key : pyobj) : result Hash :=
  match body_of key with
  | BFloat hex => Ok (hash_update key_hash (encode hex))
  | _ => Raise AttributeError
  end.

Definition update_for_complex (key_hash : Hash) (key : pyobj) : result Hash :=
  match body_of key with
  | BComplex repr => Ok (hash_update key_hash (encode repr))
  | _ => Raise AttributeError
  end.

Definition update_for_bytes (key_hash : Hash) (key : pyobj) : result Hash :=
  match body_of key with
  | BBytes b => Ok (hash_update key_hash b)
  | _ => Raise AttributeError
  end.

Definition update_for_NoneType (key_hash : Hash) (key : pyobj) : result Hash :=
  Ok (hash_update key_hash (encode "<None>")).

Definition update_for_dtype (key_hash : Hash) (key : pyobj) : result Hash :=
  match body_of key with
  | BDtype str => Ok (hash_update key_hash (encode str))
  | _ => Raise AttributeError
  end.

Definition update_for_specific_dtype := update_for_dtype.

Definition update_for_numpy_scalar (key_hash : Hash) (key : pyobj) : result Hash :=
  match body_of key with
  | BScalar raw => Ok (hash_update key_hash raw)
  | _ => Raise AttributeError
  end.

(** *** The updaters that call [self.rec]

    [self] is the method [rec] of the key builder. *)

Definition rec_t : Type := Hash -> pyobj -> result Hash.

(** [for obj_i in key: self.rec(key_hash, obj_i)] *)
Definition rec_each (self : rec_t) (key_hash : Hash) (items : list pyobj)
  : result Hash :=
  fold_left (fun acc obj_i => h <- acc ;; self h obj_i) items (Ok key_hash).

Definition update_for_tuple (self : rec_t) (key_hash : Hash) (key : pyobj)
  : result Hash :=
  match body_of key with
  | BSeq items => rec_each self key_hash items
  | _ => Raise (TypeError "object is not iterable")
  end.

(** The generator [(f(x) for x in xs)], consumed to its end or to the
    first exception. *)
Fixpoint generate {A B : Type} (f : A -> result B) (xs : list A)
  : result (list B) :=
  match xs with
  | [] => Ok []
  | x :: xs' => y <- f x ;; ys <- generate f xs' ;; Ok (y :: ys)
  end.

Definition update_for_frozenset (self : rec_t) (key_hash : Hash) (key : pyobj)
  : result Hash :=
  match body_of key with
  | BSeq items =>
      digests <- generate
        (fun key_i => h <- self new_hash key_i ;; Ok (hash_digest h)) items ;;
      Ok (unordered_hash key_hash digests)
  | _ => Raise (TypeError "object is not iterable")
  end.

(** [self.rec(key_hash, s)] for a [str] made on the spot, as [rec] runs
    on it: no digest attribute, no hook, [update_for_str]. *)
Definition rec_str (key_hash : Hash) (s : string) : Hash :=
  hash_update key_hash (hash_digest (update_for_str new_hash s)).

(** [self.rec(key_hash, (k, v))] for a pair made on the spot, as [rec]
    runs on it: no digest attribute, no hook, [update_for_tuple]. *)
Definition rec_pair (self : rec_t) (key_hash : Hash) (k v : pyobj)
  : result Hash :=
  inner <- (h <- self new_hash k ;; self h v) ;;
  Ok (hash_update key_hash (hash_digest inner)).

(** [update_for_dataclass] and [update_for_attrs] differ in where the
    fields come from ([dc_fields(key)], [attrs.fields(key.__class__)]);
    the object carries them as [BFields]. *)
Definition update_for_fields (self : rec_t) (key_hash : Hash) (key : pyobj)
  : result Hash :=
  match body_of key with
  | BFields flds =>
      let tp := type_of key in
      fold_left
        (fun acc fld =>
           h <- acc ;; self (rec_str h (fst fld)) (snd fld))
        flds
        (Ok (rec_str key_hash (tp_qualname tp ++ "." ++ tp_name tp)%string))
  | _ => Raise (TypeError "object is not a dataclass or attrs instance")
  end.

Definition update_for_dataclass := update_for_fields.
Definition update_for_attrs := update_for_fields.

Definition update_for_frozendict (self : rec_t) (key_hash : Hash) (key : pyobj)
  : result Hash :=
  match body_of key with
  | BMapping items =>
      digests <- generate
        (fun kv => h <- rec_pair self new_hash (fst kv) (snd kv) ;;
                   Ok (hash_digest h)) items ;;
      Ok (unordered_hash key_hash digests)
  | _ => Raise AttributeError
  end.

(** [method(inner_key_hash, key)] *)
Definition call_updater (self : rec_t) (method : updater)
  (key_hash : Hash) (key : pyobj) : result Hash :=
  match method with
  | for_type => update_for_type key_hash key
  | for_int => update_for_int key_hash key
  | for_enum => update_for_enum key_hash key
  | for_bool => update_for_bool key_hash key
  | for_float => update_for_float key_hash key
  | for_complex => update_for_complex key_hash key
  | for_str =>
      match body_of key with
      | BStr s => Ok (update_for_str key_hash s)
      | _ => Raise AttributeError
      end
  | for_bytes => update_for_bytes key_hash key
  | for_tuple => update_for_tuple self key_hash key
  | for_frozenset => update_for_frozenset self key_hash key
  | for_NoneType => update_for_NoneType key_hash key
  | for_dtype => update_for_dtype key_hash key
  | for_specific_dtype => update_for_specific_dtype key_hash key
  | for_numpy_scalar => update_for_numpy_scalar key_hash key
  | for_dataclass => update_for_dataclass self key_hash key
  | for_attrs => update_for_attrs self key_hash key
  | for_frozendict => update_for_frozendict self key_hash key
  end.

(** [method(inner_key_hash, self)] for [key.update_persistent_hash] *)
Definition call_hook (self : rec_t) (steps : list (bytes + pyobj))
  (key_hash : Hash) : result Hash :=
  fold_left
    (fun acc step =>
       h <- acc ;;
       match step with
       | inl data => Ok (hash_update h data)
       | inr obj => self h obj
       end)
    steps (Ok key_hash).

(** *** [rec] and [__call__] *)

(** The digest [rec] settles on before [key_hash.update(digest)]: the
    attribute, else the hook (not for a class), else the updater; an
    exception of the hook or the updater propagates, and [TypeError] is
    raised when all three leave [digest] at [None]. *)
Definition digest_of (self : rec_t) (key : pyobj) : result bytes :=
  digest1 <-
    match memo_of key, is_type key with
    | None, false =>
        match hook_of key with
        | None => Ok None
        | Some method =>
            inner_key_hash <- call_hook self method new_hash ;;
            Ok (Some (hash_digest inner_key_hash))
        end
    | digest, _ => Ok digest
    end ;;
  digest2 <-
    match digest1 with
    | Some digest => Ok (Some digest)
    | None =>
        match select_method (type_of key) with
        | Some method =>
            inner_key_hash <- call_updater self method new_hash key ;;
            Ok (Some (hash_digest inner_key_hash))
        | None => Ok None
        end
    end ;;
  match digest2 with
  | None => Raise (unsupported (type_of key))
  | Some digest => Ok digest
  end.

(** [rec]; the attribute it sets on [key] before returning holds the
    digest it has just used, and the objects of the model are not
    changed by it. *)
Fixpoint rec (key_hash : Hash) (key : pyobj) {struct key} : result Hash :=
  digest <- digest_of rec key ;;
  Ok (hash_update key_hash digest).

(** [KeyBuilder.__call__] *)
Definition call (key : pyobj) : result string :=
  key_hash <- rec new_hash key ;;
  Ok (hash_hexdigest key_hash).

End KeyBuilder.
End KeyBuilder.

(** ** The table behind the dictionaries

    [CREATE TABLE IF NOT EXISTS dict (key text NOT NULL PRIMARY KEY, value)]
    on a connection in autocommit mode: every statement is applied at once.
    The table is an ordinary rowid table, so a row gets the rowid one above
    the largest in the table when the statement starts (rowids stay far
    below 2^63 here), and [INSERT OR REPLACE] deletes the row that holds
    the key before it inserts the new one. *)

Module Sqlite.

Record row : Type := { rowid : Z; key : string; value : bytes }.

(** A connection: the rows of [dict] and the count that [changes()]
    returns. *)
Record conn : Type := { rows : list row; changes : Z }.

Definition connect (rows : list row) : conn := {| rows := rows; changes := 0 |}.

Definition has_key (k : string) (r : row) : bool := String.eqb (key r) k.

Definition new_rowid (rs : list row) : Z :=
  fold_right (fun r m => Z.max (rowid r) m) 0 rs + 1.

(** [INSERT INTO dict VALUES (?, ?)] *)
Definition insert (c : conn) (k : string) (v : bytes) : result conn :=
  if existsb (has_key k) (rows c) then Raise IntegrityError
  else Ok {| rows := rows c ++ [{| rowid := new_rowid (rows c); key := k; value := v |}];
             changes := 1 |}.

(** [INSERT OR REPLACE INTO dict VALUES (?, ?)] *)
Definition insert_or_replace (c : conn) (k : string) (v : bytes) : conn :=
  {| rows := filter (fun r => negb (has_key k r)) (rows c)
             ++ [{| rowid := new_rowid (rows c); key := k; value := v |}];
     changes := 1 |}.

(** [DELETE FROM dict WHERE key=?] *)
Definition delete_where (c : conn) (k : string) : conn :=
  {| rows := filter (fun r => negb (has_key k r)) (rows c);
     changes := Z.of_nat (List.length (filter (has_key k) (rows c))) |}.

(** [DELETE FROM dict;] *)
Definition delete_all (c : conn) : conn :=
  {| rows := []; changes := Z.of_nat (List.length (rows c)) |}.

(** [SELECT value FROM dict WHERE key=?], then [fetchone()] *)
Definition select_value (c : conn) (k : string) : option bytes :=
  option_map value (find (has_key k) (rows c)).

(** [ORDER BY rowid] *)
Fixpoint place (r : row) (sorted : list row) : list row :=
  match sorted with
  | [] => [r]
  | r' :: rest =>
      if rowid r <=? rowid r' then r :: sorted else r' :: place r rest
  end.

Definition order_by_rowid (rs : list row) : list row :=
  fold_right place [] rs.

(** [SELECT COUNT( * ) FROM dict] *)
Definition count (c : conn) : Z := Z.of_nat (List.length (rows c)).

End Sqlite.

(** ** pickle and functools.lru_cache *)

(** [pickle.dumps] and [pickle.loads] on the values [pickle] can
    serialise; on any other object [pickle.dumps] raises, see [pyvalue]
    below. *)
Class Pickle (V : Type) : Type := {
  dumps : V -> bytes;
  loads : bytes -> V;
  loads_dumps : forall v, loads (dumps v) = v }.

(** [functools.lru_cache(maxsize)] around a function of one [str]: the
    entries, most recently used first.  A call that raises leaves no
    entry; a negative [maxsize] is 0, and with 0 nothing is kept. *)
Module LruCache.
Section LruCache.
Context {V : Type}.

Record t : Type := { maxsize : Z; entries : list (string * V) }.

Definition make (maxsize : Z) : t := {| maxsize := maxsize; entries := [] |}.

Definition lookup (k : string) (es : list (string * V)) : option V :=
  option_map snd (find (fun e => String.eqb (fst e) k) es).

Definition without (k : string) (es : list (string * V)) : list (string * V) :=
  filter (fun e => negb (String.eqb (fst e) k)) es.

Definition call (user_function : string -> result V) (c : t) (k : string)
  : result V * t :=
  if maxsize c <=? 0 then (user_function k, c)
  else
    match lookup k (entries c) with
    | Some v =>
        (Ok v, {| maxsize := maxsize c; entries := (k, v) :: without k (entries c) |})
    | None =>
        match user_function k with
        | Raise e => (Raise e, c)
        | Ok v =>
            let kept :=
              if Z.of_nat (List.length (entries c)) >=? maxsize c
              then removelast (entries c) else entries c in
            (Ok v, {| maxsize := maxsize c; entries := (k, v) :: kept |})
        end
    end.

Definition cache_clear (c : t) : t := {| maxsize := maxsize c; entries := [] |}.

End LruCache.
End LruCache.

Arguments LruCache.t V : clear implicits.

(** [isinstance(e, KeyError)]: what [except KeyError] catches. *)
Definition is_KeyError (e : exn) : bool :=
  match e with
  | KeyError | NoSuchEntryError _ | ReadOnlyEntryError _ => true
  | _ => false
  end.

(** ** _PersistentDictBase *)

Module PersistentDictBase.
Section PersistentDictBase.
Context {V : Type} {pickle : Pickle V}.

(** [__len__] *)
Definition len (c : Sqlite.conn) : Z := Sqlite.count c.

(** [keys]; each call runs its [SELECT] anew. *)
Definition keys (c : Sqlite.conn) : list string :=
  map Sqlite.key (Sqlite.order_by_rowid (Sqlite.rows c)).

Definition values (c : Sqlite.conn) : list V :=
  map (fun r => loads (Sqlite.value r)) (Sqlite.order_by_rowid (Sqlite.rows c)).

Definition items (c : Sqlite.conn) : list (string * V) :=
  map (fun r => (Sqlite.key r, loads (Sqlite.value r)))
    (Sqlite.order_by_rowid (Sqlite.rows c)).

Definition clear (c : Sqlite.conn) : Sqlite.conn := Sqlite.delete_all c.

End PersistentDictBase.
End PersistentDictBase.

(** ** WriteOncePersistentDict *)

Module WriteOncePersistentDict.
Section WriteOncePersistentDict.
Context {V : Type} {pickle : Pickle V}.

Record t : Type := {
  key_builder : pyobj -> result string;
  conn : Sqlite.conn;
  fetch_cache : LruCache.t V }.

(** [__init__] on a file that holds [rows] *)
Definition init (key_builder : pyobj -> result string) (rows : list Sqlite.row)
  (in_mem_cache_size : Z) : t :=
  {| key_builder := key_builder;
     conn := Sqlite.connect rows;
     fetch_cache := LruCache.make in_mem_cache_size |}.

Definition clear_in_mem_cache (self : t) : t :=
  {| key_builder := key_builder self;
     conn := conn self;
     fetch_cache := LruCache.cache_clear (fetch_cache self) |}.

Definition store (self : t) (key : pyobj) (value : V) (_skip_if_present : bool)
  : result unit * t :=
  match key_builder self key with
  | Raise e => (Raise e, self)
  | Ok k =>
      let v := dumps value in
      match Sqlite.insert (conn self) k v with
      | Ok conn' =>
          (Ok tt, {| key_builder := key_builder self;
                     conn := conn';
                     fetch_cache := fetch_cache self |})
      | Raise IntegrityError =>
          if negb _skip_if_present
          then (Raise (ReadOnlyEntryError
                         "WriteOncePersistentDict, tried overwriting key"), self)
          else (Ok tt, self)
      | Raise e => (Raise e, self)
      end
  end.

Definition store_if_not_present (self : t) (key : pyobj) (value : V)
  : result unit * t :=
  store self key value true.

(** [_fetch] as defined in the class, before [__init__] wraps it *)
Definition _fetch (self : t) (keyhash : string) : result V :=
  match Sqlite.select_value (conn self) keyhash with
  | None => Raise KeyError
  | Some v => Ok (loads v)
  end.

Definition fetch (self : t) (key : pyobj) : result V * t :=
  match key_builder self key with
  | Raise e => (Raise e, self)
  | Ok k =>
      let (r, cache') := LruCache.call (_fetch self) (fetch_cache self) k in
      let self' := {| key_builder := key_builder self;
                      conn := conn self;
                      fetch_cache := cache' |} in
      match r with
      | Ok v => (Ok v, self')
      | Raise e =>
          if is_KeyError e then (Raise (NoSuchEntryError key), self')
          else (Raise e, self')
      end
  end.

Definition clear (self : t) : t :=
  {| key_builder := key_builder self;
     conn := PersistentDictBase.clear (conn self);
     fetch_cache := LruCache.cache_clear (fetch_cache self) |}.

End WriteOncePersistentDict.
End WriteOncePersistentDict.

Arguments WriteOncePersistentDict.t V : clear implicits.

(** ** PersistentDict *)

Module PersistentDict.
Section PersistentDict.
Context {V : Type} {pickle : Pickle V}.

Record t : Type := {
  key_builder : pyobj -> result string;
  conn : Sqlite.conn }.

Definition init (key_builder : pyobj -> result string) (rows : list Sqlite.row) : t :=
  {| key_builder := key_builder; conn := Sqlite.connect rows |}.

Definition with_conn (self : t) (c : Sqlite.conn) : t :=
  {| key_builder := key_builder self; conn := c |}.

Definition store (self : t) (key : pyobj) (value : V) (_skip_if_present : bool)
  : result unit * t :=
  match key_builder self key with
  | Raise e => (Raise e, self)
  | Ok k =>
      let v := dumps value in
      if _skip_if_present then
        match Sqlite.insert (conn self) k v with
        | Ok conn' => (Ok tt, with_conn self conn')
        | Raise IntegrityError => (Ok tt, self)
        | Raise e => (Raise e, self)
        end
      else (Ok tt, with_conn self (Sqlite.insert_or_replace (conn self) k v))
  end.

Definition store_if_not_present (self : t) (key : pyobj) (value : V)
  : result unit * t :=
  store self key value true.

Definition fetch (self : t) (key : pyobj) : result V * t :=
  match key_builder self key with
  | Raise e => (Raise e, self)
  | Ok k =>
      match Sqlite.select_value (conn self) k with
      | None => (Raise (NoSuchEntryError key), self)
      | Some v => (Ok (loads v), self)
      end
  end.

Definition remove (self : t) (key : pyobj) : result unit * t :=
  match key_builder self key with
  | Raise e => (Raise e, self)
  | Ok k =>
      let conn' := Sqlite.delete_where (conn self) k in
      let self' := with_conn self conn' in
      if Sqlite.changes conn' =? 0
      then (Raise (NoSuchEntryError key), self')
      else (Ok tt, self')
  end.

Definition clear (self : t) : t :=
  with_conn self (PersistentDictBase.clear (conn self)).

End PersistentDict.
End PersistentDict.

(** ** Values [pickle] cannot serialise

    [store] takes any object as its value and hands it to [pickle.dumps],
    which raises for an object it cannot serialise (a lock, an open file,
    a generator).  [V] is the type of the values it can serialise; an
    object offered to [store] is one of those, or one on which
    [pickle.dumps] raises [e]. *)

Inductive pyvalue (V : Type) : Type :=
| Picklable (v : V)
| Unpicklable (e : exn).

Arguments Picklable {V} v.
Arguments Unpicklable {V} e.

Section StoreObject.
Context {V : Type} {pickle : Pickle V}.

(** [pickle.dumps(value)] *)
Definition pickle_dumps (value : pyvalue V) : result bytes :=
  match value with
  | Picklable v => Ok (dumps v)
  | Unpicklable e => Raise e
  end.

(** [PersistentDict.store] on any object: [self.key_builder(key)], then
    [pickle.dumps(value)], then the statement; only the statement is
    inside a [try].  On [Picklable v] it is [PersistentDict.store] on [v]. *)
Definition pd_store_object (self : PersistentDict.t) (key : pyobj)
  (value : pyvalue V) (_skip_if_present : bool) : result unit * PersistentDict.t :=
  match PersistentDict.key_builder self key with
  | Raise e => (Raise e, self)
  | Ok k =>
      match pickle_dumps value with
      | Raise e => (Raise e, self)
      | Ok v =>
          if _skip_if_present then
            match Sqlite.insert (PersistentDict.conn self) k v with
            | Ok conn' => (Ok tt, PersistentDict.with_conn self conn')
            | Raise IntegrityError => (Ok tt, self)
            | Raise e => (Raise e, self)
            end
          else (Ok tt, PersistentDict.with_conn self
                         (Sqlite.insert_or_replace (PersistentDict.conn self) k v))
      end
  end.

(** [store_if_not_present] *)
Definition pd_store_object_if_not_present (self : PersistentDict.t) (key : pyobj)
  (value : pyvalue V) : result unit * PersistentDict.t :=
  pd_store_object self key value true.

(** [WriteOncePersistentDict.store] on any object, in the same order; on
    [Picklable v] it is [WriteOncePersistentDict.store] on [v]. *)
Definition wo_store_object (self : WriteOncePersistentDict.t V) (key : pyobj)
  (value : pyvalue V) (_skip_if_present : bool)
  : result unit * WriteOncePersistentDict.t V :=
  match WriteOncePersistentDict.key_builder self key with
  | Raise e => (Raise e, self)
  | Ok k =>
      match pickle_dumps value with
      | Raise e => (Raise e, self)
      | Ok v =>
          match Sqlite.insert (WriteOncePersistentDict.conn self) k v with
          | Ok conn' =>
              (Ok tt, {| WriteOncePersistentDict.key_builder :=
                           WriteOncePersistentDict.key_builder self;
                         WriteOncePersistentDict.conn := conn';
                         WriteOncePersistentDict.fetch_cache :=
                           WriteOncePersistentDict.fetch_cache self |})
          | Raise IntegrityError =>
              if negb _skip_if_present
              then (Raise (ReadOnlyEntryError
                             "WriteOncePersistentDict, tried overwriting key"), self)
              else (Ok tt, self)
          | Raise e => (Raise e, self)
          end
      end
  end.

End StoreObject.

(** ** A small environment to run the definitions

    The examples below need some algorithm in the place of SHA-256; the
    32-bit FNV-1a hash is short enough to evaluate.  [new_hash] is the
    attribute of [KeyBuilder] that a subclass replaces to switch
    algorithms. *)

Module Fnv.

Definition step (h : Z) (b : byte) : Z :=
  (Z.lxor h (byte.unsigned b) * 16777619) mod 2 ^ 32.

Definition fnv1a (data : bytes) : bytes :=
  le_split 4 (fold_left step data 2166136261).

#[export] Instance env : Env :=
  {| sha256 := fnv1a; digest_size := 4; numpy_loaded := false; HAS_ATTRS := false |}.

(** Values are byte strings, pickled as themselves. *)
#[export] Instance pickle : Pickle bytes :=
  {| dumps := fun v => v; loads := fun v => v; loads_dumps := fun v => eq_refl |}.

End Fnv.

(** The scenario of the documentation: the key
    [("compile", {"opt": 2, "flags": ("a", "b")})], the value
    [b"ARTIFACT"], and dictionaries opened on an empty file with the
    default key builder. *)
Module Sample.

Definition key : pyobj :=
  PyTuple [PyStr "compile";
           PyMapping "frozendict"
             [(PyStr "opt", PyInt 2);
              (PyStr "flags", PyTuple [PyStr "a"; PyStr "b"])]].

Definition artifact : bytes := encode "ARTIFACT".
Definition other : bytes := encode "OTHER".

Definition write_once : WriteOncePersistentDict.t bytes :=
  WriteOncePersistentDict.init (@KeyBuilder.call Fnv.env) [] 256.

Definition mutable : PersistentDict.t :=
  PersistentDict.init (@KeyBuilder.call Fnv.env) [].

(** [mutable] after [store("a", ...)], then [store("b", ...)], then
    [store("a", ...)] again. *)
Definition after_a : PersistentDict.t :=
  snd (@PersistentDict.store bytes Fnv.pickle mutable (PyStr "a") artifact false).
Definition after_a_b : PersistentDict.t :=
  snd (@PersistentDict.store bytes Fnv.pickle after_a (PyStr "b") artifact false).
Definition after_a_b_a : PersistentDict.t :=
  snd (@PersistentDict.store bytes Fnv.pickle after_a_b (PyStr "a") other false).

End Sample.

(** A class [Foo] of module [app] that defines nothing for the key
    builder, and is no enum, dataclass, attrs class or numpy type. *)
Definition app_Foo : pytype :=
  {| tp_module := "app"; tp_qualname := "Foo"; tp_name := "Foo";
     tp_is_enum := false; tp_is_dataclass := false; tp_has_attrs := false;
     tp_is_np_dtype := false; tp_is_np_number := false |}.

(** A dataclass [Point] and an enum [Color] of the module [app], and an
    object of [app.Foo] with a method [update_persistent_hash] that feeds the
    hash the bytes of ["foo"]. *)
Definition app_Point : pytype :=
  {| tp_module := "app"; tp_qualname := "Point"; tp_name := "Point";
     tp_is_enum := false; tp_is_dataclass := true; tp_has_attrs := false;
     tp_is_np_dtype := false; tp_is_np_number := false |}.

Definition app_Color : pytype :=
  {| tp_module := "app"; tp_qualname := "Color"; tp_name := "Color";
     tp_is_enum := true; tp_is_dataclass := false; tp_has_attrs := false;
     tp_is_np_dtype := false; tp_is_np_number := false |}.

Definition hooked_Foo (memo : option bytes) : pyobj :=
  Obj app_Foo memo (Some [inl (encode "foo")]) BOpaque.

(** The sample write-once dictionary after the artifact is stored and
    fetched once. *)
Definition stored_and_fetched : WriteOncePersistentDict.t bytes :=
  snd (@WriteOncePersistentDict.fetch bytes Fnv.pickle
         (snd (@WriteOncePersistentDict.store bytes Fnv.pickle
                 Sample.write_once Sample.key Sample.artifact false))
         Sample.key).

(** A lock, which [pickle.dumps] refuses. *)
Definition a_lock : pyvalue bytes :=
  Unpicklable (TypeError "cannot pickle '_thread.lock' object").

(** ** What the claims speak of *)

(** The widths [update_for_int] tries: [sz], [2 * sz], [4 * sz], ... *)
Definition doubled (sz : positive) (k : nat) : positive :=
  Nat.iter k (Pos.mul 2) sz.

(** [n] fits a signed integer of [sz] bytes. *)
Definition in_range (n : Z) (sz : positive) : Prop :=
  - 2 ^ (8 * Z.pos sz - 1) <= n < 2 ^ (8 * Z.pos sz - 1).

(** [data] is the two's-complement little-endian encoding of [n] at [sz]
    bytes: [sz] bytes that read, least significant first, as [n] modulo
    [2 ^ (8 * sz)], for [n] in the signed range of that width. *)
Definition twos_complement_le (sz : positive) (n : Z) (data : bytes) : Prop :=
  in_range n sz /\
  List.length data = Pos.to_nat sz /\
  le_combine data = n mod 2 ^ (8 * Z.pos sz).

(** The hash does not collide on [x] and [y]. *)
Definition no_collision {env : Env} (x y : bytes) : Prop :=
  sha256 x = sha256 y -> x = y.

(** *** Sequences of calls on a dictionary *)

Inductive wo_call (V : Type) : Type :=
| wo_store (key : pyobj) (value : V) (_skip_if_present : bool)
| wo_fetch (key : pyobj)
| wo_clear
| wo_clear_in_mem_cache.

Arguments wo_store {V} key value _skip_if_present.
Arguments wo_fetch {V} key.
Arguments wo_clear {V}.
Arguments wo_clear_in_mem_cache {V}.

Inductive pd_call (V : Type) : Type :=
| pd_store (key : pyobj) (value : V) (_skip_if_present : bool)
| pd_fetch (key : pyobj)
| pd_remove (key : pyobj)
| pd_clear.

Arguments pd_store {V} key value _skip_if_present.
Arguments pd_fetch {V} key.
Arguments pd_remove {V} key.
Arguments pd_clear {V}.

Section Calls.
Context {V : Type} {pickle : Pickle V}.

(** The dictionary after one call, whether it returned or raised. *)
Definition wo_step (self : WriteOncePersistentDict.t V) (c : wo_call V)
  : WriteOncePersistentDict.t V :=
  match c with
  | wo_store key value skip => snd (WriteOncePersistentDict.store self key value skip)
  | wo_fetch key => snd (WriteOncePersistentDict.fetch self key)
  | wo_clear => WriteOncePersistentDict.clear self
  | wo_clear_in_mem_cache => WriteOncePersistentDict.clear_in_mem_cache self
  end.

Definition wo_run (self : WriteOncePersistentDict.t V) (calls : list (wo_call V))
  : WriteOncePersistentDict.t V :=
  fold_left wo_step calls self.

(** A write-once dictionary some time after [__init__]. *)
Definition wo_reachable (self : WriteOncePersistentDict.t V) : Prop :=
  exists key_builder rows in_mem_cache_size calls,
    self = wo_run (WriteOncePersistentDict.init key_builder rows in_mem_cache_size)
             calls.


Definition pd_step (self : PersistentDict.t) (c : pd_call V) : PersistentDict.t :=
  match c with
  | pd_store key value skip => snd (PersistentDict.store self key value skip)
  | pd_fetch key => snd (PersistentDict.fetch self key)
  | pd_remove key => snd (PersistentDict.remove self key)
  | pd_clear => PersistentDict.clear self
  end.

Definition pd_run (self : PersistentDict.t) (calls : list (pd_call V))
  : PersistentDict.t :=
  fold_left pd_step calls self.

(** *** The order of the latest insertions

    The digests of the live entries, each where its latest insertion
    put it: an insertion puts a digest last, a replacement takes it from
    its place and puts it last. *)

Definition listed (k : string) (order : list string) : bool :=
  existsb (fun k' => String.eqb k' k) order.

Definition dropped (k : string) (order : list string) : list string :=
  filter (fun k' => negb (String.eqb k' k)) order.

Definition wo_order_step (key_builder : pyobj -> result string)
  (order : list string) (c : wo_call V) : list string :=
  match c with
  | wo_store key _ _ =>
      match key_builder key with
      | Ok k => if listed k order then order else order ++ [k]
      | Raise _ => order
      end
  | wo_clear => []
  | wo_fetch _ | wo_clear_in_mem_cache => order
  end.

Definition pd_order_step (key_builder : pyobj -> result string)
  (order : list string) (c : pd_call V) : list string :=
  match c with
  | pd_store key _ true =>
      match key_builder key with
      | Ok k => if listed k order then order else order ++ [k]
      | Raise _ => order
      end
  | pd_store key _ false =>
      match key_builder key with
      | Ok k => dropped k order ++ [k]
      | Raise _ => order
      end
  | pd_remove key =>
      match key_builder key with
      | Ok k => dropped k order
      | Raise _ => order
      end
  | pd_clear => []
  | pd_fetch _ => order
  end.

End Calls.

(** Every entry of the cache of [_fetch] is what [_fetch] returns on the
    table as it stands. *)
Definition wo_coherent {V : Type} {pickle : Pickle V}
  (self : WriteOncePersistentDict.t V) : Prop :=
  forall k v,
    In (k, v) (LruCache.entries (WriteOncePersistentDict.fetch_cache self)) ->
    WriteOncePersistentDict._fetch self k = Ok v.

(** Rows in the order of their rowids, no two alike. *)
Definition by_rowid (rows : list Sqlite.row) : Prop :=
  StronglySorted (fun r r' => Sqlite.rowid r < Sqlite.rowid r') rows.

(** *** The rest of the module *)

(** The name [__init__] joins to [container_dir]:
    [f"pdict-v6-{identifier}" + ".".join(str(i) for i in sys.version_info)
     + ".sqlite"], with [version_info] the texts [str(i)]. *)
Definition db_name (identifier : string) (version_info : list string) : string :=
  ("pdict-v6-" ++ identifier ++ String.concat "." version_info ++ ".sqlite")%string.

(** No digest is the key of two rows: [key text NOT NULL PRIMARY KEY]. *)
Definition unique_keys (rows : list Sqlite.row) : Prop :=
  NoDup (map Sqlite.key rows).

(** The tuple of the qualified name of a dataclass or attrs class and of
    the names and values of the fields of an instance, in their order. *)
Definition fields_as_tuple (tp : pytype) (flds : list (string * pyobj)) : pyobj :=
  PyTuple (PyStr (tp_qualname tp ++ "." ++ tp_name tp)%string
           :: flat_map (fun fld => [PyStr (fst fld); snd fld]) flds).

(** A [PersistentDict] on the table of a write-once dictionary, with its
    key builder: the reads of the table with no cache in front. *)
Definition uncached {V : Type} (self : WriteOncePersistentDict.t V) : PersistentDict.t :=
  {| PersistentDict.key_builder := WriteOncePersistentDict.key_builder self;
     PersistentDict.conn := WriteOncePersistentDict.conn self |}.

(** * Properties *)

(** ** Integers: [update_for_int] *)

Section IntEncoding.
Context {env : Env}.

Lemma update_for_int_loop_unfold key_hash key sz :
  KeyBuilder.update_for_int_loop key_hash key sz =
  match int_to_bytes key sz with
  | Ok data => Ok (hash_update key_hash data)
  | Raise OverflowError => KeyBuilder.update_for_int_loop key_hash key (2 * sz)
  | Raise e => Raise e
  end.
Proof.
  funelim (KeyBuilder.update_for_int_loop key_hash key sz);
    match goal with H : int_to_bytes _ _ = _ |- _ => rewrite H end;
    reflexivity.
Qed.

Lemma int_to_bytes_in_range key sz :
  in_range key sz -> int_to_bytes key sz = Ok (le_split (Pos.to_nat sz) key).
Proof.
  unfold in_range, int_to_bytes. intros [Hlo Hhi].
  apply Z.leb_le in Hlo. apply Z.ltb_lt in Hhi.
  rewrite Hlo, Hhi. reflexivity.
Qed.

Lemma int_to_bytes_overflow key sz :
  ~ in_range key sz -> int_to_bytes key sz = Raise OverflowError.
Proof.
  unfold in_range, int_to_bytes. intros H.
  destruct (- 2 ^ (8 * Z.pos sz - 1) <=? key) eqn:Hlo;
    destruct (key <? 2 ^ (8 * Z.pos sz - 1)) eqn:Hhi; try reflexivity.
  apply Z.leb_le in Hlo. apply Z.ltb_lt in Hhi. exfalso. apply H. lia.
Qed.

Lemma in_range_dec key sz : {in_range key sz} + {~ in_range key sz}.
Proof.
  unfold in_range.
  destruct (Z_le_dec (- 2 ^ (8 * Z.pos sz - 1)) key);
    destruct (Z_lt_dec key (2 ^ (8 * Z.pos sz - 1)));
    (left; lia) || (right; lia).
Defined.

Lemma overflow_log2 key sz :
  ~ in_range key sz -> 8 * Z.pos sz - 1 <= Z.log2 (Z.abs key).
Proof.
  unfold in_range. intros H.
  apply Z.log2_le_pow2; [|]; assert (0 < 2 ^ (8 * Z.pos sz - 1)) by (apply Z.pow_pos_nonneg; lia); lia.
Qed.

Lemma doubled_succ sz k : doubled sz (S k) = doubled (2 * sz) k.
Proof.
  unfold doubled. induction k as [|k IH]; [reflexivity|].
  simpl in *. rewrite IH. reflexivity.
Qed.

(** The loop stops at the first width that fits, having fed the
    encoding at that width. *)
Lemma update_for_int_loop_least key_hash key :
  forall (fuel : nat) (sz : positive),
    (Z.to_nat (Z.log2 (Z.abs key) + 2 - 8 * Z.pos sz) <= fuel)%nat ->
    exists k,
      KeyBuilder.update_for_int_loop key_hash key sz =
        Ok (hash_update key_hash (le_split (Pos.to_nat (doubled sz k)) key)) /\
      in_range key (doubled sz k) /\
      forall j, (j < k)%nat -> ~ in_range key (doubled sz j).
Proof.
  induction fuel as [|fuel IH]; intros sz Hfuel;
    rewrite update_for_int_loop_unfold;
    destruct (in_range_dec key sz) as [Hin|Hout].
  - exists 0%nat. rewrite (int_to_bytes_in_range _ _ Hin).
    split; [reflexivity | split; [exact Hin | intros j Hj; lia]].
  - apply overflow_log2 in Hout. lia.
  - exists 0%nat. rewrite (int_to_bytes_in_range _ _ Hin).
    split; [reflexivity | split; [exact Hin | intros j Hj; lia]].
  - rewrite (int_to_bytes_overflow _ _ Hout).
    destruct (IH (2 * sz)%positive) as [k [Hrun [Hfit Hleast]]].
    { apply overflow_log2 in Hout. lia. }
    exists (S k). rewrite doubled_succ.
    split; [exact Hrun | split; [exact Hfit|]].
    intros [|j] Hj; [exact Hout|].
    rewrite doubled_succ. apply Hleast. lia.
Qed.

Lemma le_split_twos_complement sz n :
  in_range n sz -> twos_complement_le sz n (le_split (Pos.to_nat sz) n).
Proof.
  intros Hin. split; [exact Hin | split].
  - apply length_le_split.
  - rewrite le_combine_split. f_equal. f_equal. lia.
Qed.

Lemma signed_window P q m n :
  0 < P -> m - n = q * (2 * P) -> - P <= m < P -> - P <= n < P -> m = n.
Proof.
  intros HP Hq [Hm1 Hm2] [Hn1 Hn2].
  assert (q < 1) by nia.
  assert (-1 < q) by nia.
  assert (q = 0) by lia. subst q. lia.
Qed.

(** An integer is determined by its encoding, whatever the width. *)
Lemma twos_complement_le_inj sz1 sz2 m n data :
  twos_complement_le sz1 m data -> twos_complement_le sz2 n data -> m = n.
Proof.
  intros [Hm [Hlen1 Hval1]] [Hn [Hlen2 Hval2]].
  assert (sz1 = sz2) by (apply Pos2Nat.inj; congruence). subst sz2.
  unfold in_range in *.
  set (w := 8 * Z.pos sz1 - 1) in *.
  assert (Hpow : 2 ^ (8 * Z.pos sz1) = 2 * 2 ^ w).
  { unfold w. rewrite <- Z.pow_succ_r by lia. f_equal. lia. }
  assert (0 < 2 ^ w) by (apply Z.pow_pos_nonneg; unfold w; lia).
  rewrite Hpow in *.
  assert (Hmod : (m - n) mod (2 * 2 ^ w) = 0).
  { rewrite Zminus_mod, <- Hval1, <- Hval2, Z.sub_diag. apply Z.mod_0_l. lia. }
  apply Z.mod_divide in Hmod; [|lia].
  destruct Hmod as [q Hq].
  apply (signed_window (2 ^ w) q); lia.
Qed.

End IntEncoding.

(** ** Text and digests *)

Section Digests.
Context {env : Env}.

Lemma hex_digit_inj a b :
  (a < 16)%N -> (b < 16)%N -> hex_digit a = hex_digit b -> a = b.
Proof.
  unfold hex_digit. intros Ha Hb E.
  apply (f_equal N_of_ascii) in E.
  rewrite !N_ascii_embedding in E;
    destruct (a <? 10)%N eqn:Ea; destruct (b <? 10)%N eqn:Eb;
    try apply N.ltb_lt in Ea; try apply N.ltb_ge in Ea;
    try apply N.ltb_lt in Eb; try apply N.ltb_ge in Eb; lia.
Qed.

Lemma hex_inj a : forall b, hex a = hex b -> a = b.
Proof.
  induction a as [|x a IH]; intros [|y b] E; try discriminate E; [reflexivity|].
  simpl in E. injection E as Ehi Elo Erest.
  assert (Hx : (Byte.to_N x < 256)%N)
    by (pose proof (Byte.to_N_bounded x); lia).
  assert (Hy : (Byte.to_N y < 256)%N)
    by (pose proof (Byte.to_N_bounded y); lia).
  apply hex_digit_inj in Ehi;
    [| apply N.Div0.div_lt_upper_bound; lia | apply N.Div0.div_lt_upper_bound; lia].
  apply hex_digit_inj in Elo; [| apply N.mod_lt; lia | apply N.mod_lt; lia].
  f_equal; [|apply IH; exact Erest].
  apply byte.to_N_inj.
  rewrite (N.div_mod (Byte.to_N x) 16), (N.div_mod (Byte.to_N y) 16) by lia.
  congruence.
Qed.

Lemma app_prefix_inj (A : Type) (a : list A) :
  forall b c d, List.length a = List.length b -> a ++ c = b ++ d -> a = b.
Proof.
  induction a as [|x a IH]; intros [|y b] c d Hlen E;
    try discriminate Hlen; [reflexivity|].
  simpl in *. injection E as -> E. injection Hlen as Hlen.
  f_equal. exact (IH _ _ _ Hlen E).
Qed.

Lemma hash_update_inj h d1 d2 : hash_update h d1 = hash_update h d2 -> d1 = d2.
Proof.
  unfold hash_update. intros E. injection E as E.
  exact (app_inv_head _ _ _ E).
Qed.

Lemma rec_unfold key_hash key :
  KeyBuilder.rec key_hash key =
  (digest <- KeyBuilder.digest_of KeyBuilder.rec key ;;
   Ok (hash_update key_hash digest)).
Proof. destruct key; reflexivity. Qed.

(** [__call__] is the hexdigest of the hash of the digest of [rec]. *)
Lemma call_digest_of key :
  KeyBuilder.call key =
  (digest <- KeyBuilder.digest_of KeyBuilder.rec key ;;
   Ok (hex (sha256 digest))).
Proof.
  unfold KeyBuilder.call. rewrite rec_unfold.
  destruct (KeyBuilder.digest_of KeyBuilder.rec key); reflexivity.
Qed.

(** On an object of a built-in type, with no digest attribute and no
    hook, the digest is that of a fresh hash after the updater. *)
Lemma digest_of_plain tp body method :
  KeyBuilder.select_method tp = Some method ->
  is_type (Obj tp None None body) = false ->
  KeyBuilder.digest_of KeyBuilder.rec (Obj tp None None body) =
  (inner <- KeyBuilder.call_updater KeyBuilder.rec method new_hash
              (Obj tp None None body) ;;
   Ok (hash_digest inner)).
Proof.
  intros Hsel Hty. unfold KeyBuilder.digest_of.
  cbn [memo_of hook_of type_of]. rewrite Hty, Hsel. cbn [bind].
  destruct (KeyBuilder.call_updater _ _ _ _); reflexivity.
Qed.

End Digests.

Section IntClaim.
Context {env : Env}.

Lemma update_for_int_fed key_hash n :
  exists k,
    KeyBuilder.update_for_int key_hash (PyInt n) =
      Ok (hash_update key_hash (le_split (Pos.to_nat (doubled 8 k)) n)) /\
    in_range n (doubled 8 k) /\
    forall j, (j < k)%nat -> ~ in_range n (doubled 8 j).
Proof.
  unfold KeyBuilder.update_for_int. cbn [body_of PyInt].
  eapply update_for_int_loop_least. apply le_n.
Qed.

(** C8. For every integer [n], [update_for_int] feeds the hash the
    two's-complement little-endian encoding of [n] at the first of the
    widths 8, 16, 32, ... bytes whose signed range holds [n]; two
    distinct integers are fed distinct byte strings, and their digests
    (the one [rec] feeds on, and the hexdigest [__call__] returns)
    differ as long as the hash does not collide on them. *)
Theorem update_for_int_minimal_twos_complement :
  (forall key_hash n,
      exists k data,
        KeyBuilder.update_for_int key_hash (PyInt n) =
          Ok (hash_update key_hash data) /\
        twos_complement_le (doubled 8 k) n data /\
        forall j, (j < k)%nat -> ~ in_range n (doubled 8 j)) /\
  (forall m n hm hn,
      KeyBuilder.update_for_int new_hash (PyInt m) = Ok hm ->
      KeyBuilder.update_for_int new_hash (PyInt n) = Ok hn ->
      m <> n ->
      fed hm <> fed hn /\
      (no_collision (fed hm) (fed hn) ->
       KeyBuilder.digest_of KeyBuilder.rec (PyInt m) = Ok (sha256 (fed hm)) /\
       KeyBuilder.digest_of KeyBuilder.rec (PyInt n) = Ok (sha256 (fed hn)) /\
       sha256 (fed hm) <> sha256 (fed hn) /\
       (no_collision (sha256 (fed hm)) (sha256 (fed hn)) ->
        KeyBuilder.call (PyInt m) <> KeyBuilder.call (PyInt n)))).
Proof.
  split.
  - intros key_hash n.
    destruct (update_for_int_fed key_hash n) as [k [Hrun [Hfit Hleast]]].
    exists k, (le_split (Pos.to_nat (doubled 8 k)) n).
    split; [exact Hrun | split; [|exact Hleast]].
    apply le_split_twos_complement. exact Hfit.
  - intros m n hm hn Hm Hn Hneq.
    destruct (update_for_int_fed new_hash m) as [km [Hrunm [Hfitm _]]].
    destruct (update_for_int_fed new_hash n) as [kn [Hrunn [Hfitn _]]].
    rewrite Hm in Hrunm. rewrite Hn in Hrunn.
    injection Hrunm as ->. injection Hrunn as ->.
    assert (Hfed : fed (hash_update new_hash (le_split (Pos.to_nat (doubled 8 km)) m))
                   <> fed (hash_update new_hash (le_split (Pos.to_nat (doubled 8 kn)) n))).
    { cbn [fed hash_update new_hash app]. intros E. apply Hneq.
      apply (twos_complement_le_inj (doubled 8 km) (doubled 8 kn) m n
               (le_split (Pos.to_nat (doubled 8 km)) m)).
      - apply le_split_twos_complement. exact Hfitm.
      - rewrite E. apply le_split_twos_complement. exact Hfitn. }
    split; [exact Hfed|].
    intros Hnc.
    assert (Hdm : KeyBuilder.digest_of KeyBuilder.rec (PyInt m) =
                  Ok (sha256 (fed (hash_update new_hash
                                     (le_split (Pos.to_nat (doubled 8 km)) m))))).
    { unfold PyInt. rewrite (digest_of_plain _ _ KeyBuilder.for_int) by reflexivity.
      cbn [KeyBuilder.call_updater]. fold (PyInt m). rewrite Hm. reflexivity. }
    assert (Hdn : KeyBuilder.digest_of KeyBuilder.rec (PyInt n) =
                  Ok (sha256 (fed (hash_update new_hash
                                     (le_split (Pos.to_nat (doubled 8 kn)) n))))).
    { unfold PyInt. rewrite (digest_of_plain _ _ KeyBuilder.for_int) by reflexivity.
      cbn [KeyBuilder.call_updater]. fold (PyInt n). rewrite Hn. reflexivity. }
    split; [exact Hdm | split; [exact Hdn|]].
    assert (Hd : sha256 (fed (hash_update new_hash (le_split (Pos.to_nat (doubled 8 km)) m)))
                 <> sha256 (fed (hash_update new_hash (le_split (Pos.to_nat (doubled 8 kn)) n)))).
    { intros E. apply Hfed. apply Hnc. exact E. }
    split; [exact Hd|].
    intros Hnc2 E. rewrite !call_digest_of, Hdm, Hdn in E. cbn [bind] in E.
    injection E as E. apply hex_inj in E. apply Hd. apply Hnc2. exact E.
Qed.

End IntClaim.

(** The integers 255 and -1 under FNV-1a: one byte apart in the
    encoding, and apart in every digest. *)
Lemma update_for_int_witness :
  fed (hash_update new_hash (le_split 8 255)) <> fed (hash_update new_hash (le_split 8 (-1))) /\
  @KeyBuilder.call Fnv.env (PyInt 255) <> @KeyBuilder.call Fnv.env (PyInt (-1)).
Proof.
  destruct (proj2 (@update_for_int_minimal_twos_complement Fnv.env) 255 (-1)
              (hash_update new_hash (le_split 8 255))
              (hash_update new_hash (le_split 8 (-1)))
              eq_refl eq_refl ltac:(discriminate)) as [Hfed Hrest].
  split; [exact Hfed|].
  destruct Hrest as [_ [_ [_ Hcall]]].
  - intros E. vm_compute in E. discriminate E.
  - apply Hcall. intros E. vm_compute in E. discriminate E.
Defined.

(** ** Objects no rule applies to *)

Section Unsupported.
Context {env : Env}.

(** C7. An object with no digest attribute and no hook, for whose type
    [rec] finds no method (no [update_for_<tname>], and none of the numpy,
    enum, dataclass and attrs rules), makes [rec] and [__call__] raise
    the [TypeError] for unsupported keys, whose message names
    [type(key)]; nothing else is raised and the hash is not returned. *)
Theorem unsupported_type_raises tp body :
  KeyBuilder.select_method tp = None ->
  (forall key_hash,
      KeyBuilder.rec key_hash (Obj tp None None body) =
        Raise (TypeError ("unsupported type for persistent hash keying: "
                          ++ KeyBuilder.type_repr tp)%string)) /\
  KeyBuilder.call (Obj tp None None body) =
    Raise (TypeError ("unsupported type for persistent hash keying: "
                      ++ KeyBuilder.type_repr tp)%string).
Proof.
  intros Hsel.
  assert (Hd : KeyBuilder.digest_of KeyBuilder.rec (Obj tp None None body) =
               Raise (KeyBuilder.unsupported tp)).
  { unfold KeyBuilder.digest_of. cbn [memo_of hook_of type_of].
    rewrite Hsel. destruct (is_type (Obj tp None None body)); reflexivity. }
  split.
  - intros key_hash. rewrite rec_unfold, Hd. reflexivity.
  - rewrite call_digest_of, Hd. reflexivity.
Qed.

End Unsupported.

(** An instance of [app.Foo]. *)
Lemma unsupported_type_raises_witness :
  @KeyBuilder.call Fnv.env (Obj app_Foo None None BOpaque) =
    Raise (TypeError "unsupported type for persistent hash keying: <class 'app.Foo'>").
Proof.
  exact (proj2 (@unsupported_type_raises Fnv.env app_Foo BOpaque eq_refl)).
Defined.

(** ** Tuples *)

Section Tuples.
Context {env : Env}.

(** The digest of a pair: the hash of the two digests, in order. *)
Lemma digest_of_pair a b :
  KeyBuilder.digest_of KeyBuilder.rec (PyTuple [a; b]) =
  (da <- KeyBuilder.digest_of KeyBuilder.rec a ;;
   db <- KeyBuilder.digest_of KeyBuilder.rec b ;;
   Ok (sha256 (da ++ db))).
Proof.
  unfold PyTuple.
  rewrite (digest_of_plain _ _ KeyBuilder.for_tuple) by reflexivity.
  cbn [KeyBuilder.call_updater KeyBuilder.update_for_tuple body_of
       KeyBuilder.rec_each fold_left bind].
  rewrite (rec_unfold new_hash a).
  destruct (KeyBuilder.digest_of KeyBuilder.rec a) as [da|e]; [|reflexivity].
  cbn [bind]. rewrite rec_unfold.
  destruct (KeyBuilder.digest_of KeyBuilder.rec b) as [db|e]; reflexivity.
Qed.

(** [True] and ["True"] are fed to the hash as the same four bytes. *)
Lemma digest_of_True_str :
  KeyBuilder.digest_of KeyBuilder.rec (PyBool true) =
  KeyBuilder.digest_of KeyBuilder.rec (PyStr "True").
Proof. reflexivity. Qed.

Lemma call_True_str_swapped :
  KeyBuilder.call (PyTuple [PyBool true; PyStr "True"]) =
  KeyBuilder.call (PyTuple [PyStr "True"; PyBool true]).
Proof.
  rewrite !call_digest_of, !digest_of_pair, digest_of_True_str. reflexivity.
Qed.

(** C6, amended. When [a] and [b] have distinct digests of one length,
    [(a, b)] and [(b, a)] have distinct hexdigests, as long as the hash
    collides neither on the two concatenations of the digests nor on
    their hashes. *)
Theorem tuple_order_sensitive a b da db :
  KeyBuilder.digest_of KeyBuilder.rec a = Ok da ->
  KeyBuilder.digest_of KeyBuilder.rec b = Ok db ->
  List.length da = List.length db ->
  da <> db ->
  no_collision (da ++ db) (db ++ da) ->
  no_collision (sha256 (da ++ db)) (sha256 (db ++ da)) ->
  exists xab xba,
    KeyBuilder.call (PyTuple [a; b]) = Ok xab /\
    KeyBuilder.call (PyTuple [b; a]) = Ok xba /\
    xab <> xba.
Proof.
  intros Ha Hb Hlen Hneq Hnc1 Hnc2.
  exists (hex (sha256 (sha256 (da ++ db)))), (hex (sha256 (sha256 (db ++ da)))).
  rewrite !call_digest_of, !digest_of_pair, Ha, Hb. cbn [bind].
  split; [reflexivity | split; [reflexivity|]].
  intros E. apply hex_inj in E. apply Hnc2 in E. apply Hnc1 in E.
  apply Hneq. eapply app_prefix_inj; [exact Hlen | exact E].
Qed.

End Tuples.

(** The integers 1 and 2 as [a] and [b], under FNV-1a. *)
Lemma tuple_order_sensitive_witness :
  exists xab xba,
    @KeyBuilder.call Fnv.env (PyTuple [PyInt 1; PyInt 2]) = Ok xab /\
    @KeyBuilder.call Fnv.env (PyTuple [PyInt 2; PyInt 1]) = Ok xba /\
    xab <> xba.
Proof.
  apply (@tuple_order_sensitive Fnv.env (PyInt 1) (PyInt 2)
           (@sha256 Fnv.env (le_split 8 1)) (@sha256 Fnv.env (le_split 8 2))).
  - reflexivity.
  - reflexivity.
  - reflexivity.
  - intros E. vm_compute in E. discriminate E.
  - intros E. vm_compute in E. discriminate E.
  - intros E. vm_compute in E. discriminate E.
Defined.

(** C6 as stated fails: [True] and ["True"] are different objects, and
    the pairs [(True, "True")] and [("True", True)] have the same
    hexdigest.  [call_True_str_swapped] shows that the algorithm plays no
    part in it. *)
Lemma tuple_order_counterexample :
  PyBool true <> PyStr "True" /\
  @KeyBuilder.call Fnv.env (PyTuple [PyBool true; PyStr "True"]) =
  @KeyBuilder.call Fnv.env (PyTuple [PyStr "True"; PyBool true]).
Proof.
  split; [discriminate | apply call_True_str_swapped].
Qed.

(** ** Sets and mappings *)

Section Unordered.
Context {env : Env}.

Lemma xor_fold_permutation l l' :
  Permutation l l' -> forall a, fold_left Z.lxor l a = fold_left Z.lxor l' a.
Proof.
  induction 1 as [|x l l' _ IH|x y l|l l' l'' _ IH1 _ IH2]; intros a; simpl.
  - reflexivity.
  - apply IH.
  - f_equal. rewrite !Z.lxor_assoc. f_equal. apply Z.lxor_comm.
  - rewrite IH1. apply IH2.
Qed.

Lemma unordered_hash_permutation h ds ds' :
  Permutation ds ds' -> unordered_hash h ds = unordered_hash h ds'.
Proof.
  intros Hp. unfold unordered_hash. do 2 f_equal.
  apply xor_fold_permutation. apply Permutation_map. exact Hp.
Qed.

(** A generator that runs to its end on one enumeration runs to its end
    on any other, and yields the same values in the other order. *)
Lemma generate_permutation (A B : Type) (f : A -> result B) xs xs' :
  Permutation xs xs' ->
  forall ys, KeyBuilder.generate f xs = Ok ys ->
  exists ys', KeyBuilder.generate f xs' = Ok ys' /\ Permutation ys ys'.
Proof.
  induction 1 as [|x l l' _ IH|x y l|l l' l'' _ IH1 _ IH2]; intros ys Hgen.
  - exists ys. split; [exact Hgen | apply Permutation_refl].
  - simpl in *. destruct (f x) as [z|e]; [|discriminate Hgen].
    cbn [bind] in *.
    destruct (KeyBuilder.generate f l) as [zs|e]; [|discriminate Hgen].
    cbn [bind] in Hgen. injection Hgen as <-.
    destruct (IH zs eq_refl) as [zs' [-> Hp]].
    exists (z :: zs'). split; [reflexivity | apply perm_skip; exact Hp].
  - simpl in *. destruct (f y) as [zy|e]; [|discriminate Hgen].
    cbn [bind] in *. destruct (f x) as [zx|e]; [|discriminate Hgen].
    cbn [bind] in *.
    destruct (KeyBuilder.generate f l) as [zs|e]; [|discriminate Hgen].
    cbn [bind] in *. injection Hgen as <-.
    exists (zx :: zy :: zs). split; [reflexivity | apply perm_swap].
  - destruct (IH1 ys Hgen) as [ys' [Hgen' Hp']].
    destruct (IH2 ys' Hgen') as [ys'' [Hgen'' Hp'']].
    exists ys''. split; [exact Hgen'' | exact (Permutation_trans Hp' Hp'')].
Qed.

Lemma digest_of_setlike tp items :
  KeyBuilder.select_method tp = Some KeyBuilder.for_frozenset ->
  KeyBuilder.digest_of KeyBuilder.rec (Obj tp None None (BSeq items)) =
  (digests <- KeyBuilder.generate
     (fun key_i => h <- KeyBuilder.rec new_hash key_i ;; Ok (hash_digest h))
     items ;;
   Ok (hash_digest (unordered_hash new_hash digests))).
Proof.
  intros Hsel. rewrite (digest_of_plain _ _ _ Hsel) by reflexivity.
  cbn [KeyBuilder.call_updater KeyBuilder.update_for_frozenset body_of].
  destruct (KeyBuilder.generate _ items); reflexivity.
Qed.

Lemma digest_of_mapping tp items :
  KeyBuilder.select_method tp = Some KeyBuilder.for_frozendict ->
  KeyBuilder.digest_of KeyBuilder.rec (Obj tp None None (BMapping items)) =
  (digests <- KeyBuilder.generate
     (fun kv => h <- KeyBuilder.rec_pair KeyBuilder.rec new_hash (fst kv) (snd kv) ;;
                Ok (hash_digest h))
     items ;;
   Ok (hash_digest (unordered_hash new_hash digests))).
Proof.
  intros Hsel. rewrite (digest_of_plain _ _ _ Hsel) by reflexivity.
  cbn [KeyBuilder.call_updater KeyBuilder.update_for_frozendict body_of].
  destruct (KeyBuilder.generate _ items); reflexivity.
Qed.

(** [rec_pair] is [rec] on the tuple [(k, v)]. *)
Lemma rec_pair_is_rec key_hash k v :
  KeyBuilder.rec_pair KeyBuilder.rec key_hash k v =
  KeyBuilder.rec key_hash (PyTuple [k; v]).
Proof.
  rewrite (rec_unfold key_hash (PyTuple [k; v])), digest_of_pair.
  unfold KeyBuilder.rec_pair. rewrite (rec_unfold new_hash k).
  destruct (KeyBuilder.digest_of KeyBuilder.rec k) as [dk|e]; [|reflexivity].
  cbn [bind]. rewrite rec_unfold.
  destruct (KeyBuilder.digest_of KeyBuilder.rec v) as [dv|e]; reflexivity.
Qed.

(** [rec_str] is [rec] on the text. *)
Lemma rec_str_is_rec key_hash s :
  KeyBuilder.rec key_hash (PyStr s) = Ok (KeyBuilder.rec_str key_hash s).
Proof. reflexivity. Qed.

(** C5. The hexdigest of a set-like object (handled by
    [update_for_frozenset]) and of a mapping (handled by
    [update_for_frozendict]) does not depend on the order in which the
    elements, or the key-value pairs, are enumerated. *)
Theorem unordered_digest_permutation_invariant :
  (forall tp items items' d,
      KeyBuilder.select_method tp = Some KeyBuilder.for_frozenset ->
      Permutation items items' ->
      KeyBuilder.call (Obj tp None None (BSeq items)) = Ok d ->
      KeyBuilder.call (Obj tp None None (BSeq items')) = Ok d) /\
  (forall tp items items' d,
      KeyBuilder.select_method tp = Some KeyBuilder.for_frozendict ->
      Permutation items items' ->
      KeyBuilder.call (Obj tp None None (BMapping items)) = Ok d ->
      KeyBuilder.call (Obj tp None None (BMapping items')) = Ok d).
Proof.
  split; intros tp items items' d Hsel Hp Hcall;
    rewrite call_digest_of in *.
  - rewrite (digest_of_setlike tp items Hsel) in Hcall.
    rewrite (digest_of_setlike tp items' Hsel).
    destruct (KeyBuilder.generate _ items) as [ds|e] eqn:Hgen;
      [|discriminate Hcall].
    destruct (generate_permutation _ _ _ _ _ Hp _ Hgen) as [ds' [-> Hp']].
    cbn [bind] in *. rewrite <- (unordered_hash_permutation new_hash _ _ Hp').
    exact Hcall.
  - rewrite (digest_of_mapping tp items Hsel) in Hcall.
    rewrite (digest_of_mapping tp items' Hsel).
    destruct (KeyBuilder.generate _ items) as [ds|e] eqn:Hgen;
      [|discriminate Hcall].
    destruct (generate_permutation _ _ _ _ _ Hp _ Hgen) as [ds' [-> Hp']].
    cbn [bind] in *. rewrite <- (unordered_hash_permutation new_hash _ _ Hp').
    exact Hcall.
Qed.

End Unordered.

(** The set {1, 2, 3} and the mapping {"a": 1, "b": 2} in two orders. *)
Lemma unordered_digest_permutation_invariant_witness :
  @KeyBuilder.call Fnv.env (PyFrozenset [PyInt 3; PyInt 1; PyInt 2]) = Ok "aa812911" /\
  @KeyBuilder.call Fnv.env
    (PyMapping "frozendict" [(PyStr "b", PyInt 2); (PyStr "a", PyInt 1)]) = Ok "8e8e7d53".
Proof.
  split.
  - apply (proj1 (@unordered_digest_permutation_invariant Fnv.env)
             (builtin "frozenset") [PyInt 1; PyInt 2; PyInt 3]).
    + reflexivity.
    + apply Permutation_sym. apply (Permutation_cons_append [PyInt 1; PyInt 2] (PyInt 3)).
    + reflexivity.
  - apply (proj2 (@unordered_digest_permutation_invariant Fnv.env)
             (mapping_type "frozendict") [(PyStr "a", PyInt 1); (PyStr "b", PyInt 2)]).
    + reflexivity.
    + apply perm_swap.
    + reflexivity.
Defined.

(** ** The table *)

Section Table.

Lemma find_none_existsb (A : Type) (f : A -> bool) l :
  find f l = None <-> existsb f l = false.
Proof.
  induction l as [|x l IH]; simpl; [tauto|].
  destruct (f x); simpl; [split; discriminate | exact IH].
Qed.

Lemma find_filter_out (A : Type) (f : A -> bool) l :
  find f (filter (fun x => negb (f x)) l) = None.
Proof.
  induction l as [|x l IH]; simpl; [reflexivity|].
  destruct (f x) eqn:E; simpl; [exact IH | rewrite E; exact IH].
Qed.

Lemma find_app (A : Type) (f : A -> bool) l l' :
  find f (l ++ l') = match find f l with Some x => Some x | None => find f l' end.
Proof.
  induction l as [|x l IH]; simpl; [reflexivity|].
  destruct (f x); [reflexivity | exact IH].
Qed.

Lemma filter_all (A : Type) (f : A -> bool) l :
  existsb f l = false -> filter (fun x => negb (f x)) l = l /\ filter f l = [].
Proof.
  induction l as [|x l IH]; simpl; [intros _; split; reflexivity|].
  destruct (f x); simpl; [discriminate|].
  intros H. destruct (IH H) as [-> ->]. split; reflexivity.
Qed.

Lemma select_value_none c k :
  Sqlite.select_value c k = None <-> existsb (Sqlite.has_key k) (Sqlite.rows c) = false.
Proof.
  unfold Sqlite.select_value. rewrite <- find_none_existsb.
  destruct (find _ _); simpl; split; congruence.
Qed.

Lemma insert_ok c k v c' :
  Sqlite.insert c k v = Ok c' ->
  Sqlite.select_value c k = None /\
  Sqlite.rows c' =
    Sqlite.rows c ++ [{| Sqlite.rowid := Sqlite.new_rowid (Sqlite.rows c);
                         Sqlite.key := k; Sqlite.value := v |}].
Proof.
  unfold Sqlite.insert.
  destruct (existsb _ _) eqn:E; [discriminate|].
  intros H. injection H as <-. split; [apply select_value_none; exact E | reflexivity].
Qed.

Lemma insert_raises c k v e :
  Sqlite.insert c k v = Raise e ->
  e = IntegrityError /\ Sqlite.select_value c k <> None.
Proof.
  unfold Sqlite.insert.
  destruct (existsb _ _) eqn:E; [|discriminate].
  intros H. injection H as <-. split; [reflexivity|].
  rewrite select_value_none, E. discriminate.
Qed.

Lemma insert_total c k v :
  (Sqlite.select_value c k = None -> exists c', Sqlite.insert c k v = Ok c') /\
  (Sqlite.select_value c k <> None -> Sqlite.insert c k v = Raise IntegrityError).
Proof.
  unfold Sqlite.insert. rewrite select_value_none.
  destruct (existsb _ _); split; intros H;
    try discriminate; try (exfalso; apply H; reflexivity); eauto.
Qed.

(** The row that [INSERT] adds is the one a [SELECT] of its key finds. *)
Lemma select_inserted c k v c' :
  Sqlite.insert c k v = Ok c' -> Sqlite.select_value c' k = Some v.
Proof.
  intros H. destruct (insert_ok _ _ _ _ H) as [Hnone Hrows].
  unfold Sqlite.select_value in *. rewrite Hrows, find_app.
  destruct (find (Sqlite.has_key k) (Sqlite.rows c)); [discriminate Hnone|].
  simpl. unfold Sqlite.has_key at 1. simpl. rewrite String.eqb_refl. reflexivity.
Qed.

(** [INSERT] leaves the rows that were there as they were. *)
Lemma select_kept c k v c' k' b :
  Sqlite.insert c k v = Ok c' ->
  Sqlite.select_value c k' = Some b -> Sqlite.select_value c' k' = Some b.
Proof.
  intros H. destruct (insert_ok _ _ _ _ H) as [_ Hrows].
  unfold Sqlite.select_value. rewrite Hrows, find_app.
  destruct (find (Sqlite.has_key k') (Sqlite.rows c)); [trivial | discriminate].
Qed.

Lemma select_replaced c k v :
  Sqlite.select_value (Sqlite.insert_or_replace c k v) k = Some v.
Proof.
  unfold Sqlite.select_value, Sqlite.insert_or_replace. cbn [Sqlite.rows].
  rewrite find_app, find_filter_out. simpl.
  unfold Sqlite.has_key at 1. simpl. rewrite String.eqb_refl. reflexivity.
Qed.

Lemma select_deleted c k :
  Sqlite.select_value (Sqlite.delete_where c k) k = None.
Proof.
  unfold Sqlite.select_value, Sqlite.delete_where. cbn [Sqlite.rows].
  rewrite find_filter_out. reflexivity.
Qed.

Lemma delete_absent c k :
  Sqlite.select_value c k = None ->
  Sqlite.rows (Sqlite.delete_where c k) = Sqlite.rows c /\
  Sqlite.changes (Sqlite.delete_where c k) = 0.
Proof.
  intros H. apply select_value_none in H.
  destruct (filter_all _ _ _ H) as [Hkeep Hgone].
  unfold Sqlite.delete_where. cbn [Sqlite.rows Sqlite.changes].
  rewrite Hkeep, Hgone. split; reflexivity.
Qed.

End Table.

(** ** The cache of [_fetch] *)

Section Cache.
Context {V : Type}.

Lemma lookup_in k (es : list (string * V)) v :
  LruCache.lookup k es = Some v -> In (k, v) es.
Proof.
  unfold LruCache.lookup.
  destruct (find _ es) as [[k' v']|] eqn:E; [|discriminate].
  simpl. intros H. injection H as <-.
  apply find_some in E. destruct E as [Hin Hk]. simpl in Hk.
  apply String.eqb_eq in Hk. subst k'. exact Hin.
Qed.

Lemma in_lookup k (es : list (string * V)) :
  LruCache.lookup k es = None -> forall v, ~ In (k, v) es.
Proof.
  unfold LruCache.lookup. intros H v Hin.
  destruct (find _ es) eqn:E; [discriminate H|].
  apply (find_none _ _ E) in Hin. simpl in Hin.
  rewrite String.eqb_refl in Hin. discriminate Hin.
Qed.

Lemma in_removelast (A : Type) (x : A) l : In x (removelast l) -> In x l.
Proof.
  induction l as [|y l IH]; simpl; [tauto|].
  destruct l as [|z l]; [simpl; tauto|].
  intros [H|H]; [left; exact H | right; exact (IH H)].
Qed.

(** A call that misses the cache returns what the function returns. *)
Lemma call_miss (f : string -> result V) c k :
  LruCache.lookup k (LruCache.entries c) = None ->
  fst (LruCache.call f c k) = f k.
Proof.
  intros Hmiss. unfold LruCache.call.
  destruct (LruCache.maxsize c <=? 0); [reflexivity|].
  rewrite Hmiss. destruct (f k); reflexivity.
Qed.

(** A call that raises leaves the cache as it was. *)
Lemma call_raises (f : string -> result V) c k e :
  fst (LruCache.call f c k) = Raise e -> LruCache.call f c k = (Raise e, c).
Proof.
  unfold LruCache.call.
  destruct (LruCache.maxsize c <=? 0); [simpl; intros ->; reflexivity|].
  destruct (LruCache.lookup k (LruCache.entries c)); [discriminate|].
  destruct (f k); simpl; [discriminate | intros H; rewrite H; reflexivity].
Qed.

(** What a call returns is an entry or what the function returns, and
    what it leaves in the cache was there or is what the function
    returned. *)
Lemma call_entries (f : string -> result V) c k :
  (fst (LruCache.call f c k) = f k \/
   exists v, fst (LruCache.call f c k) = Ok v /\ In (k, v) (LruCache.entries c)) /\
  forall k' v',
    In (k', v') (LruCache.entries (snd (LruCache.call f c k))) ->
    In (k', v') (LruCache.entries c) \/ (k' = k /\ f k = Ok v').
Proof.
  unfold LruCache.call.
  destruct (LruCache.maxsize c <=? 0); [simpl; split; [left; reflexivity | tauto]|].
  destruct (LruCache.lookup k (LruCache.entries c)) as [v|] eqn:Hl.
  - simpl. apply lookup_in in Hl. split; [right; exists v; tauto|].
    intros k' v' [H|H]; [injection H as <- <-; left; exact Hl|].
    left. unfold LruCache.without in H. apply filter_In in H. tauto.
  - destruct (f k) as [v|e] eqn:Hf; simpl; (split; [left; reflexivity|]); [|tauto].
    intros k' v' [H|H]; [injection H as <- <-; right; split; reflexivity|].
    left. destruct (_ >=? _); [apply in_removelast|]; exact H.
Qed.

End Cache.

(** ** WriteOncePersistentDict: the cache follows the table *)

Section WriteOnce.
Context {V : Type} {pickle : Pickle V}.

Abbreviation WO := (WriteOncePersistentDict.t V).
Abbreviation key_builder := WriteOncePersistentDict.key_builder.
Abbreviation conn := WriteOncePersistentDict.conn.
Abbreviation fetch_cache := WriteOncePersistentDict.fetch_cache.

Lemma _fetch_conn (self self' : WO) :
  conn self' = conn self ->
  WriteOncePersistentDict._fetch self' = WriteOncePersistentDict._fetch self.
Proof. unfold WriteOncePersistentDict._fetch. intros ->. reflexivity. Qed.

Lemma _fetch_raises (self : WO) k e :
  WriteOncePersistentDict._fetch self k = Raise e ->
  e = KeyError /\ Sqlite.select_value (conn self) k = None.
Proof.
  unfold WriteOncePersistentDict._fetch.
  destruct (Sqlite.select_value _ _); [discriminate|].
  intros H. injection H as <-. split; reflexivity.
Qed.

(** What [store] does, by the state of the table. *)
Lemma wo_store_cases (self : WO) key value skip :
  match key_builder self key with
  | Raise e => WriteOncePersistentDict.store self key value skip = (Raise e, self)
  | Ok k =>
      match Sqlite.select_value (conn self) k with
      | None =>
          exists conn',
            Sqlite.insert (conn self) k (dumps value) = Ok conn' /\
            WriteOncePersistentDict.store self key value skip =
              (Ok tt, {| WriteOncePersistentDict.key_builder := key_builder self;
                         WriteOncePersistentDict.conn := conn';
                         WriteOncePersistentDict.fetch_cache := fetch_cache self |})
      | Some _ =>
          WriteOncePersistentDict.store self key value skip =
            (if skip then Ok tt
             else Raise (ReadOnlyEntryError
                           "WriteOncePersistentDict, tried overwriting key"),
             self)
      end
  end.
Proof.
  unfold WriteOncePersistentDict.store.
  destruct (key_builder self key) as [k|e]; [|reflexivity].
  destruct (insert_total (conn self) k (dumps value)) as [Hnone Hsome].
  destruct (Sqlite.select_value (conn self) k) as [b|].
  - rewrite Hsome by discriminate. destruct skip; reflexivity.
  - destruct (Hnone eq_refl) as [conn' Hins]. exists conn'.
    rewrite Hins. split; reflexivity.
Qed.

Lemma wo_store_keeps (self : WO) key value skip :
  let self' := snd (WriteOncePersistentDict.store self key value skip) in
  key_builder self' = key_builder self /\
  fetch_cache self' = fetch_cache self /\
  forall k b, Sqlite.select_value (conn self) k = Some b ->
              Sqlite.select_value (conn self') k = Some b.
Proof.
  pose proof (wo_store_cases self key value skip) as H.
  destruct (key_builder self key) as [k|e]; [|rewrite H; simpl; auto].
  destruct (Sqlite.select_value (conn self) k) as [b0|] eqn:Hsel.
  - rewrite H. simpl. auto.
  - destruct H as [conn' [Hins ->]]. simpl.
    repeat split. intros k' b. apply (select_kept _ _ _ _ _ _ Hins).
Qed.

Lemma wo_fetch_keeps (self : WO) key :
  let self' := snd (WriteOncePersistentDict.fetch self key) in
  key_builder self' = key_builder self /\ conn self' = conn self.
Proof.
  unfold WriteOncePersistentDict.fetch.
  destruct (key_builder self key) as [k|e]; [|simpl; auto].
  destruct (LruCache.call _ _ k) as [[v|e] cache']; simpl; [auto|].
  destruct (is_KeyError e); simpl; auto.
Qed.

Lemma wo_step_coherent (self : WO) c :
  wo_coherent self -> wo_coherent (wo_step self c).
Proof.
  intros Hco. destruct c as [key value skip|key| |]; cbn [wo_step].
  - destruct (wo_store_keeps self key value skip) as [_ [Hcache Hkept]].
    intros k v Hin. rewrite Hcache in Hin. specialize (Hco k v Hin).
    unfold WriteOncePersistentDict._fetch in *.
    destruct (Sqlite.select_value (conn self) k) as [b|] eqn:Hsel;
      [|discriminate Hco].
    rewrite (Hkept k b Hsel). exact Hco.
  - unfold WriteOncePersistentDict.fetch.
    destruct (key_builder self key) as [k|e]; [|exact Hco].
    pose proof (call_entries (WriteOncePersistentDict._fetch self)
                  (fetch_cache self) k) as [_ Hent].
    destruct (LruCache.call _ _ k) as [r cache'] eqn:Hcall.
    assert (Hco' : forall self' : WO,
               conn self' = conn self -> fetch_cache self' = cache' ->
               wo_coherent self').
    { intros self' Hconn Hcache k' v' Hin. rewrite Hcache in Hin.
      rewrite (_fetch_conn _ _ Hconn).
      destruct (Hent k' v' Hin) as [Hold|[-> Hnew]]; [exact (Hco _ _ Hold) | exact Hnew]. }
    destruct r as [v|e]; [|destruct (is_KeyError e)]; apply Hco'; reflexivity.
  - intros k v Hin. destruct Hin.
  - intros k v Hin. destruct Hin.
Qed.

Lemma wo_run_coherent calls :
  forall self : WO, wo_coherent self -> wo_coherent (wo_run self calls).
Proof.
  induction calls as [|c calls IH]; intros self Hco; [exact Hco|].
  apply IH. apply wo_step_coherent. exact Hco.
Qed.

Lemma wo_reachable_coherent (self : WO) : wo_reachable self -> wo_coherent self.
Proof.
  intros [kb [rows [size [calls ->]]]].
  apply wo_run_coherent. intros k v Hin. destruct Hin.
Qed.

Lemma wo_reachable_run (self : WO) calls :
  wo_reachable self -> wo_reachable (wo_run self calls).
Proof.
  intros [kb [rows [size [calls0 ->]]]].
  exists kb, rows, size, (calls0 ++ calls).
  unfold wo_run. rewrite fold_left_app. reflexivity.
Qed.

(** A digest the table lacks is not in the cache. *)
Lemma wo_absent_uncached (self : WO) k :
  wo_coherent self ->
  Sqlite.select_value (conn self) k = None ->
  LruCache.lookup k (LruCache.entries (fetch_cache self)) = None.
Proof.
  intros Hco Hnone.
  destruct (LruCache.lookup k _) as [v|] eqn:Hl; [|reflexivity].
  apply lookup_in in Hl. apply Hco in Hl.
  unfold WriteOncePersistentDict._fetch in Hl. rewrite Hnone in Hl. discriminate Hl.
Qed.

(** A digest the table holds is fetched with the value of its row. *)
Lemma wo_fetch_present (self : WO) key k b :
  wo_coherent self ->
  key_builder self key = Ok k ->
  Sqlite.select_value (conn self) k = Some b ->
  fst (WriteOncePersistentDict.fetch self key) = Ok (loads b).
Proof.
  intros Hco Hk Hsel.
  assert (Hf : WriteOncePersistentDict._fetch self k = Ok (loads b)).
  { unfold WriteOncePersistentDict._fetch. rewrite Hsel. reflexivity. }
  unfold WriteOncePersistentDict.fetch. rewrite Hk.
  pose proof (call_entries (WriteOncePersistentDict._fetch self)
                (fetch_cache self) k) as [Hres _].
  destruct (LruCache.call _ _ k) as [r cache'].
  cbn [fst] in Hres.
  assert (r = Ok (loads b)) as ->.
  { destruct Hres as [->|[v [-> Hin]]]; [exact Hf|].
    apply Hco in Hin. congruence. }
  reflexivity.
Qed.

(** A digest the table lacks makes [fetch] raise, and nothing changes. *)
Lemma wo_fetch_absent (self : WO) key k :
  wo_coherent self ->
  key_builder self key = Ok k ->
  Sqlite.select_value (conn self) k = None ->
  WriteOncePersistentDict.fetch self key = (Raise (NoSuchEntryError key), self).
Proof.
  intros Hco Hk Hnone.
  pose proof (wo_absent_uncached _ k Hco Hnone) as Hmiss.
  pose proof (call_miss (WriteOncePersistentDict._fetch self) _ k Hmiss) as Hres.
  assert (Hf : WriteOncePersistentDict._fetch self k = Raise KeyError).
  { unfold WriteOncePersistentDict._fetch. rewrite Hnone. reflexivity. }
  rewrite Hf in Hres. apply call_raises in Hres.
  unfold WriteOncePersistentDict.fetch. rewrite Hk, Hres. cbn [is_KeyError].
  destruct self; reflexivity.
Qed.

(** [fetch] raises [NoSuchEntryError] only for a digest the table lacks. *)
Lemma wo_fetch_raises (self : WO) key key0 self' :
  wo_coherent self ->
  WriteOncePersistentDict.fetch self key = (Raise (NoSuchEntryError key0), self') ->
  (exists k, key_builder self key = Ok k /\
             Sqlite.select_value (conn self) k = None) \/
  key_builder self key = Raise (NoSuchEntryError key0).
Proof.
  intros Hco Hfetch.
  destruct (key_builder self key) as [k|e] eqn:Hk.
  - left. exists k. split; [reflexivity|].
    destruct (Sqlite.select_value (conn self) k) as [b|] eqn:Hsel; [|reflexivity].
    pose proof (wo_fetch_present _ key _ _ Hco Hk Hsel) as Hok.
    rewrite Hfetch in Hok. discriminate Hok.
  - right. unfold WriteOncePersistentDict.fetch in Hfetch. rewrite Hk in Hfetch.
    congruence.
Qed.

(** After a [store] that returned, [fetch] returns the value stored. *)
Lemma wo_store_then_fetch (self self' : WO) key key' value :
  wo_coherent self ->
  WriteOncePersistentDict.store self key value false = (Ok tt, self') ->
  key_builder self key' = key_builder self key ->
  fst (WriteOncePersistentDict.fetch self' key') = Ok value.
Proof.
  intros Hco Hstore Hsame.
  pose proof (wo_step_coherent _ (wo_store key value false) Hco) as Hco'.
  cbn [wo_step] in Hco'. rewrite Hstore in Hco'. cbn [snd] in Hco'.
  pose proof (wo_store_cases self key value false) as H.
  destruct (key_builder self key) as [k|e] eqn:Hk;
    [|rewrite H in Hstore; discriminate Hstore].
  destruct (Sqlite.select_value (conn self) k) as [b|] eqn:Hsel;
    [rewrite H in Hstore; discriminate Hstore|].
  destruct H as [conn' [Hins Heq]]. rewrite Heq in Hstore.
  injection Hstore as <-.
  rewrite <- (loads_dumps value).
  apply (wo_fetch_present _ key' k); [exact Hco' | exact Hsame|].
  cbn [WriteOncePersistentDict.conn]. exact (select_inserted _ _ _ _ Hins).
Qed.

End WriteOnce.

(** ** PersistentDict *)

Section Mutable.
Context {V : Type} {pickle : Pickle V}.

Lemma pd_store_replaces (self : PersistentDict.t) key k (value : V) :
  PersistentDict.key_builder self key = Ok k ->
  PersistentDict.store self key value false =
    (Ok tt, PersistentDict.with_conn self
              (Sqlite.insert_or_replace (PersistentDict.conn self) k (dumps value))).
Proof. unfold PersistentDict.store. intros ->. reflexivity. Qed.

Lemma pd_store_ok (self self' : PersistentDict.t) key (value : V) :
  PersistentDict.store self key value false = (Ok tt, self') ->
  exists k,
    PersistentDict.key_builder self key = Ok k /\
    self' = PersistentDict.with_conn self
              (Sqlite.insert_or_replace (PersistentDict.conn self) k (dumps value)).
Proof.
  unfold PersistentDict.store.
  destruct (PersistentDict.key_builder self key) as [k|e]; [|discriminate].
  intros H. injection H as <-. exists k. split; reflexivity.
Qed.

Lemma pd_fetch_present (self : PersistentDict.t) key k b :
  PersistentDict.key_builder self key = Ok k ->
  Sqlite.select_value (PersistentDict.conn self) k = Some b ->
  PersistentDict.fetch self key = (Ok (loads b : V), self).
Proof. unfold PersistentDict.fetch. intros -> ->. reflexivity. Qed.

Lemma pd_fetch_absent (self : PersistentDict.t) key k :
  PersistentDict.key_builder self key = Ok k ->
  Sqlite.select_value (PersistentDict.conn self) k = None ->
  @PersistentDict.fetch V pickle self key = (Raise (NoSuchEntryError key), self).
Proof. unfold PersistentDict.fetch. intros -> ->. reflexivity. Qed.

End Mutable.

(** ** [store] on any object *)

Section Objects.
Context {V : Type} {pickle : Pickle V}.

(** On a value [pickle] can serialise, [store] is the [store] above. *)
Lemma pd_store_object_picklable (self : PersistentDict.t) key (v : V) skip :
  pd_store_object self key (Picklable v) skip = PersistentDict.store self key v skip.
Proof.
  unfold pd_store_object, PersistentDict.store.
  destruct (PersistentDict.key_builder self key); reflexivity.
Qed.

Lemma wo_store_object_picklable (self : WriteOncePersistentDict.t V) key (v : V) skip :
  wo_store_object self key (Picklable v) skip =
    WriteOncePersistentDict.store self key v skip.
Proof.
  unfold wo_store_object, WriteOncePersistentDict.store.
  destruct (WriteOncePersistentDict.key_builder self key); reflexivity.
Qed.

(** The key builder raises before the value is looked at. *)
Lemma pd_store_object_key_raises (self : PersistentDict.t) key e
  (value : pyvalue V) skip :
  PersistentDict.key_builder self key = Raise e ->
  pd_store_object self key value skip = (Raise e, self).
Proof. unfold pd_store_object. intros ->. reflexivity. Qed.

Lemma pd_store_object_unpicklable (self : PersistentDict.t) key k e skip :
  PersistentDict.key_builder self key = Ok k ->
  pd_store_object self key (Unpicklable e : pyvalue V) skip = (Raise e, self).
Proof. unfold pd_store_object. intros ->. reflexivity. Qed.

End Objects.

Lemma call_unsupported {env : Env} tp body :
  KeyBuilder.select_method tp = None ->
  KeyBuilder.call (Obj tp None None body) = Raise (KeyBuilder.unsupported tp).
Proof.
  intros Hsel. rewrite call_digest_of.
  unfold KeyBuilder.digest_of. cbn [memo_of hook_of type_of].
  rewrite Hsel. destruct (is_type (Obj tp None None body)); reflexivity.
Qed.

(** ** The claims on the two dictionaries *)

Section Dictionaries.
Context {V : Type} {pickle : Pickle V}.

Abbreviation WO := (WriteOncePersistentDict.t V).

(** C1. Under either discipline, after [store(key, value)] has returned,
    [fetch] with the same key, or with any key of the same digest,
    returns [value]. *)
Theorem store_then_fetch :
  (forall (self self' : PersistentDict.t) key key' (value : V),
      PersistentDict.store self key value false = (Ok tt, self') ->
      PersistentDict.key_builder self key' = PersistentDict.key_builder self key ->
      fst (PersistentDict.fetch self' key') = Ok value) /\
  (forall (self self' : WO) key key' (value : V),
      wo_reachable self ->
      WriteOncePersistentDict.store self key value false = (Ok tt, self') ->
      WriteOncePersistentDict.key_builder self key' =
        WriteOncePersistentDict.key_builder self key ->
      fst (WriteOncePersistentDict.fetch self' key') = Ok value).
Proof.
  split.
  - intros self self' key key' value Hstore Hsame.
    destruct (pd_store_ok _ _ _ _ Hstore) as [k [Hk ->]].
    rewrite (pd_fetch_present _ key' k (dumps value)).
    + cbn [fst]. rewrite loads_dumps. reflexivity.
    + cbn [PersistentDict.with_conn PersistentDict.key_builder]. congruence.
    + apply select_replaced.
  - intros self self' key key' value Hreach Hstore Hsame.
    exact (wo_store_then_fetch _ _ _ _ _ (wo_reachable_coherent _ Hreach) Hstore Hsame).
Qed.





(** C3, amended. Under the mutable discipline, for a key the key
    builder has a digest for and values [pickle] can serialise,
    [store(key, v1)] and [store(key, v2)] both return and [fetch(key)] then
    returns [v2].  When the key builder raises, [store] raises the same
    whatever the value, and the dictionary is as it was; for an object with
    no digest attribute and no hook, of a type the key builder of the
    module finds no method for, that is the [TypeError] for unsupported
    keys.  When [pickle.dumps] raises on the value, [store] raises the
    same, and the dictionary is as it was. *)
Theorem mutable_store_overwrites {env : Env} (self : PersistentDict.t) key :
  (forall k (v1 v2 : V),
      PersistentDict.key_builder self key = Ok k ->
      exists self1 self2,
        pd_store_object self key (Picklable v1) false = (Ok tt, self1) /\
        pd_store_object self1 key (Picklable v2) false = (Ok tt, self2) /\
        PersistentDict.fetch self2 key = (Ok v2, self2)) /\
  (forall e (value : pyvalue V) skip,
      PersistentDict.key_builder self key = Raise e ->
      pd_store_object self key value skip = (Raise e, self)) /\
  (forall tp body (value : pyvalue V) skip,
      PersistentDict.key_builder self = KeyBuilder.call ->
      key = Obj tp None None body ->
      KeyBuilder.select_method tp = None ->
      pd_store_object self key value skip =
        (Raise (TypeError ("unsupported type for persistent hash keying: "
                           ++ KeyBuilder.type_repr tp)%string), self)) /\
  (forall k e skip,
      PersistentDict.key_builder self key = Ok k ->
      pd_store_object self key (Unpicklable e : pyvalue V) skip = (Raise e, self)).
Proof.
  split; [|split; [|split]].
  - intros k v1 v2 Hk. rewrite pd_store_object_picklable. eexists. eexists.
    split; [apply (pd_store_replaces _ _ _ _ Hk)|].
    rewrite pd_store_object_picklable.
    split; [apply (pd_store_replaces _ _ k); exact Hk|].
    rewrite (pd_fetch_present _ key k (dumps v2));
      [rewrite loads_dumps; reflexivity | exact Hk | apply select_replaced].
  - intros e value skip Hk. exact (pd_store_object_key_raises self key e value skip Hk).
  - intros tp body value skip Hkb -> Hsel.
    apply pd_store_object_key_raises.
    rewrite Hkb. exact (call_unsupported tp body Hsel).
  - intros k e skip Hk. exact (pd_store_object_unpicklable self key k e skip Hk).
Qed.

(** C4. A key whose digest the table does not hold makes [fetch] raise
    [NoSuchEntryError] under both disciplines and [remove] raise it under
    the mutable one, and the rows (and, for [fetch], the whole dictionary)
    are as before; a digest is not held after its [remove] and none is
    after [clear]. *)
Theorem missing_key_raises :
  (forall (self : PersistentDict.t) key k,
      PersistentDict.key_builder self key = Ok k ->
      Sqlite.select_value (PersistentDict.conn self) k = None ->
      @PersistentDict.fetch V pickle self key = (Raise (NoSuchEntryError key), self) /\
      fst (PersistentDict.remove self key) = Raise (NoSuchEntryError key) /\
      Sqlite.rows (PersistentDict.conn (snd (PersistentDict.remove self key))) =
        Sqlite.rows (PersistentDict.conn self)) /\
  (forall (self : WO) key k,
      wo_reachable self ->
      WriteOncePersistentDict.key_builder self key = Ok k ->
      Sqlite.select_value (WriteOncePersistentDict.conn self) k = None ->
      WriteOncePersistentDict.fetch self key = (Raise (NoSuchEntryError key), self)) /\
  (forall (self : PersistentDict.t) key k,
      PersistentDict.key_builder self key = Ok k ->
      Sqlite.select_value
        (PersistentDict.conn (snd (PersistentDict.remove self key))) k = None) /\
  (forall (self : PersistentDict.t) k,
      Sqlite.select_value (PersistentDict.conn (PersistentDict.clear self)) k = None) /\
  (forall (self : WO) k,
      Sqlite.select_value
        (WriteOncePersistentDict.conn (WriteOncePersistentDict.clear self)) k = None).
Proof.
  split; [|split; [|split; [|split]]].
  - intros self key k Hk Hnone.
    split; [exact (pd_fetch_absent self key k Hk Hnone)|].
    destruct (delete_absent _ _ Hnone) as [Hrows Hchanges].
    unfold PersistentDict.remove. rewrite Hk, Hchanges. cbn.
    split; [reflexivity | exact Hrows].
  - intros self key k Hreach Hk Hnone.
    exact (wo_fetch_absent self key k (wo_reachable_coherent _ Hreach) Hk Hnone).
  - intros self key k Hk. unfold PersistentDict.remove. rewrite Hk.
    destruct (_ =? 0); apply select_deleted.
  - reflexivity.
  - reflexivity.
Qed.

(** C10. Under the write-once discipline a [fetch] that raises
    [NoSuchEntryError] leaves the dictionary, cache included, as it was,
    with no entry for the digest; whatever calls follow, once
    [store(key, v)] has returned, [fetch(key)] returns [v]. *)
Theorem failed_fetch_is_not_cached (self self1 : WO) key :
  wo_reachable self ->
  WriteOncePersistentDict.fetch self key = (Raise (NoSuchEntryError key), self1) ->
  self1 = self /\
  (forall k,
      WriteOncePersistentDict.key_builder self key = Ok k ->
      LruCache.lookup k
        (LruCache.entries (WriteOncePersistentDict.fetch_cache self1)) = None) /\
  (forall calls (v : V) self3,
      WriteOncePersistentDict.store (wo_run self1 calls) key v false = (Ok tt, self3) ->
      fst (WriteOncePersistentDict.fetch self3 key) = Ok v).
Proof.
  intros Hreach Hfetch.
  pose proof (wo_reachable_coherent _ Hreach) as Hco.
  assert (Hsame : self1 = self).
  { destruct (wo_fetch_raises _ _ _ _ Hco Hfetch) as [[k [Hk Hnone]]|Hk].
    - rewrite (wo_fetch_absent self key k Hco Hk Hnone) in Hfetch. congruence.
    - unfold WriteOncePersistentDict.fetch in Hfetch. rewrite Hk in Hfetch.
      congruence. }
  subst self1. split; [reflexivity | split].
  - intros k Hk.
    destruct (wo_fetch_raises _ _ _ _ Hco Hfetch) as [[k' [Hk' Hnone]]|Hk'];
      [|congruence].
    assert (k' = k) by congruence. subst k'.
    exact (wo_absent_uncached self k Hco Hnone).
  - intros calls v self3 Hstore.
    apply (wo_store_then_fetch (wo_run self calls) self3 key key v);
      [|exact Hstore | reflexivity].
    apply wo_reachable_coherent. apply wo_reachable_run. exact Hreach.
Qed.

End Dictionaries.

(** The scenario of the documentation, under both disciplines. *)
Lemma store_then_fetch_witness :
  fst (@PersistentDict.fetch bytes Fnv.pickle
         (snd (@PersistentDict.store bytes Fnv.pickle
                 Sample.mutable Sample.key Sample.artifact false))
         Sample.key) = Ok Sample.artifact /\
  fst (@WriteOncePersistentDict.fetch bytes Fnv.pickle
         (snd (@WriteOncePersistentDict.store bytes Fnv.pickle
                 Sample.write_once Sample.key Sample.artifact false))
         Sample.key) = Ok Sample.artifact.
Proof.
  split.
  - apply (proj1 (@store_then_fetch bytes Fnv.pickle)
             Sample.mutable _ Sample.key Sample.key Sample.artifact);
      reflexivity.
  - apply (proj2 (@store_then_fetch bytes Fnv.pickle)
             Sample.write_once _ Sample.key Sample.key Sample.artifact).
    + exists (@KeyBuilder.call Fnv.env), [], 256, []. reflexivity.
    + reflexivity.
    + reflexivity.
Defined.


(** C3 as stated fails: [store] raises for a key the key builder has no
    digest for, here an instance of [app.Foo], and stores nothing. *)
Lemma mutable_store_counterexample :
  @pd_store_object bytes Fnv.pickle Sample.mutable (Obj app_Foo None None BOpaque)
    (Picklable Sample.artifact) false =
    (Raise (TypeError "unsupported type for persistent hash keying: <class 'app.Foo'>"),
     Sample.mutable).
Proof. reflexivity. Qed.

(** The sample key stored twice; an instance of [app.Foo] as the key; a
    lock as the value. *)
Lemma mutable_store_overwrites_witness :
  (exists self1 self2,
      @pd_store_object bytes Fnv.pickle Sample.mutable Sample.key
        (Picklable Sample.artifact) false = (Ok tt, self1) /\
      @pd_store_object bytes Fnv.pickle self1 Sample.key
        (Picklable Sample.other) false = (Ok tt, self2) /\
      @PersistentDict.fetch bytes Fnv.pickle self2 Sample.key =
        (Ok Sample.other, self2)) /\
  @pd_store_object bytes Fnv.pickle Sample.mutable (Obj app_Foo None None BOpaque)
    (Picklable Sample.other) true =
    (Raise (TypeError "unsupported type for persistent hash keying: <class 'app.Foo'>"),
     Sample.mutable) /\
  @pd_store_object bytes Fnv.pickle Sample.mutable (Obj app_Foo None None BOpaque)
    a_lock false =
    (Raise (TypeError "unsupported type for persistent hash keying: <class 'app.Foo'>"),
     Sample.mutable) /\
  @pd_store_object bytes Fnv.pickle Sample.mutable Sample.key a_lock false =
    (Raise (TypeError "cannot pickle '_thread.lock' object"), Sample.mutable).
Proof.
  split; [|split; [|split]].
  - apply (proj1 (@mutable_store_overwrites bytes Fnv.pickle Fnv.env
                    Sample.mutable Sample.key) "7a983e09").
    vm_compute. reflexivity.
  - apply (proj1 (proj2 (proj2 (@mutable_store_overwrites bytes Fnv.pickle Fnv.env
                                  Sample.mutable (Obj app_Foo None None BOpaque))))
             app_Foo BOpaque (Picklable Sample.other) true);
      reflexivity.
  - apply (proj1 (proj2 (@mutable_store_overwrites bytes Fnv.pickle Fnv.env
                           Sample.mutable (Obj app_Foo None None BOpaque)))).
    vm_compute. reflexivity.
  - apply (proj2 (proj2 (proj2 (@mutable_store_overwrites bytes Fnv.pickle Fnv.env
                                  Sample.mutable Sample.key))) "7a983e09").
    vm_compute. reflexivity.
Defined.

(** Nothing has been stored in the sample dictionaries. *)
Lemma missing_key_raises_witness :
  @PersistentDict.fetch bytes Fnv.pickle Sample.mutable Sample.key =
    (Raise (NoSuchEntryError Sample.key), Sample.mutable) /\
  fst (PersistentDict.remove Sample.mutable Sample.key) =
    Raise (NoSuchEntryError Sample.key) /\
  @WriteOncePersistentDict.fetch bytes Fnv.pickle Sample.write_once Sample.key =
    (Raise (NoSuchEntryError Sample.key), Sample.write_once).
Proof.
  destruct (@missing_key_raises bytes Fnv.pickle) as [Hpd [Hwo _]].
  destruct (Hpd Sample.mutable Sample.key "7a983e09" eq_refl eq_refl)
    as [Hfetch [Hremove _]].
  split; [exact Hfetch | split; [exact Hremove|]].
  apply (Hwo Sample.write_once Sample.key "7a983e09").
  - exists (@KeyBuilder.call Fnv.env), [], 256, []. reflexivity.
  - reflexivity.
  - reflexivity.
Defined.

(** A fetch before the artifact is stored, then the store, then a fetch. *)
Lemma failed_fetch_is_not_cached_witness :
  fst (@WriteOncePersistentDict.fetch bytes Fnv.pickle
         (snd (@WriteOncePersistentDict.store bytes Fnv.pickle
                 (@wo_run bytes Fnv.pickle Sample.write_once [])
                 Sample.key Sample.artifact false))
         Sample.key) = Ok Sample.artifact.
Proof.
  destruct (@failed_fetch_is_not_cached bytes Fnv.pickle
              Sample.write_once Sample.write_once Sample.key) as [_ [_ H]].
  - exists (@KeyBuilder.call Fnv.env), [], 256, []. reflexivity.
  - reflexivity.
  - apply (H [] Sample.artifact). reflexivity.
Defined.

(** ** Iteration *)

Section Iteration.
Context {V : Type} {pickle : Pickle V}.

Lemma new_rowid_above rows :
  Forall (fun r => Sqlite.rowid r < Sqlite.new_rowid rows) rows.
Proof.
  unfold Sqlite.new_rowid.
  induction rows as [|r rows IH]; constructor; simpl.
  - lia.
  - apply (Forall_impl _ (P := fun r' => Sqlite.rowid r' <
             fold_right (fun r m => Z.max (Sqlite.rowid r) m) 0 rows + 1));
      [intros r' Hr'; lia | exact IH].
Qed.

Lemma by_rowid_snoc rows x :
  by_rowid rows ->
  Forall (fun r => Sqlite.rowid r < Sqlite.rowid x) rows ->
  by_rowid (rows ++ [x]).
Proof.
  unfold by_rowid. induction 1 as [|r rows Hsorted IH Hr]; intros Hall; simpl.
  - repeat constructor.
  - inversion Hall as [|? ? Hrx Hrest]; subst.
    constructor; [exact (IH Hrest)|].
    apply Forall_app. split; [exact Hr | repeat constructor; exact Hrx].
Qed.

Lemma by_rowid_filter f rows : by_rowid rows -> by_rowid (filter f rows).
Proof.
  unfold by_rowid. induction 1 as [|r rows Hsorted IH Hr]; simpl; [constructor|].
  destruct (f r); [|exact IH].
  constructor; [exact IH|].
  apply Forall_forall. intros r' Hin. apply filter_In in Hin.
  exact (proj1 (Forall_forall _ _) Hr r' (proj1 Hin)).
Qed.

(** [ORDER BY rowid] returns rows kept by rowid as they are. *)
Lemma order_by_rowid_kept rows : by_rowid rows -> Sqlite.order_by_rowid rows = rows.
Proof.
  unfold by_rowid, Sqlite.order_by_rowid.
  induction 1 as [|r rows Hsorted IH Hr]; simpl; [reflexivity|].
  rewrite IH. destruct rows as [|r' rows']; [reflexivity|].
  simpl. inversion Hr as [|? ? Hlt _]; subst.
  destruct (Sqlite.rowid r <=? Sqlite.rowid r') eqn:E; [reflexivity|].
  apply Z.leb_gt in E. lia.
Qed.

Lemma keys_dropped k rows :
  map Sqlite.key (filter (fun r => negb (Sqlite.has_key k r)) rows) =
  dropped k (map Sqlite.key rows).
Proof.
  unfold dropped, Sqlite.has_key.
  induction rows as [|r rows IH]; simpl; [reflexivity|].
  destruct (String.eqb (Sqlite.key r) k); simpl; [exact IH | f_equal; exact IH].
Qed.

Lemma keys_listed k rows :
  existsb (Sqlite.has_key k) rows = listed k (map Sqlite.key rows).
Proof.
  unfold listed, Sqlite.has_key.
  induction rows as [|r rows IH]; simpl; [reflexivity | rewrite IH; reflexivity].
Qed.

Lemma insert_or_replace_by_rowid c k v :
  by_rowid (Sqlite.rows c) -> by_rowid (Sqlite.rows (Sqlite.insert_or_replace c k v)).
Proof.
  intros Hs. cbn [Sqlite.insert_or_replace Sqlite.rows].
  apply by_rowid_snoc; [apply by_rowid_filter; exact Hs|].
  apply Forall_forall. intros r Hin. apply filter_In in Hin.
  exact (proj1 (Forall_forall _ _) (new_rowid_above (Sqlite.rows c)) r (proj1 Hin)).
Qed.

Lemma insert_by_rowid c k v c' :
  Sqlite.insert c k v = Ok c' ->
  by_rowid (Sqlite.rows c) ->
  by_rowid (Sqlite.rows c') /\
  listed k (map Sqlite.key (Sqlite.rows c)) = false /\
  map Sqlite.key (Sqlite.rows c') = map Sqlite.key (Sqlite.rows c) ++ [k].
Proof.
  intros Hins Hs. destruct (insert_ok _ _ _ _ Hins) as [Hnone Hrows].
  rewrite Hrows. split; [|split].
  - apply by_rowid_snoc; [exact Hs | apply new_rowid_above].
  - rewrite <- keys_listed. apply select_value_none. exact Hnone.
  - rewrite map_app. reflexivity.
Qed.

Lemma insert_refused c k v e :
  Sqlite.insert c k v = Raise e ->
  e = IntegrityError /\ listed k (map Sqlite.key (Sqlite.rows c)) = true.
Proof.
  intros Hins. destruct (insert_raises _ _ _ _ Hins) as [-> Hsome].
  split; [reflexivity|]. rewrite <- keys_listed.
  rewrite select_value_none in Hsome.
  destruct (existsb _ _); [reflexivity | exfalso; apply Hsome; reflexivity].
Qed.

(** One call on a mutable dictionary: the rows stay in the order of
    their rowids, and their keys follow [pd_order_step]. *)
Lemma pd_step_order (self : PersistentDict.t) (c : pd_call V) :
  by_rowid (Sqlite.rows (PersistentDict.conn self)) ->
  PersistentDict.key_builder (pd_step self c) = PersistentDict.key_builder self /\
  by_rowid (Sqlite.rows (PersistentDict.conn (pd_step self c))) /\
  map Sqlite.key (Sqlite.rows (PersistentDict.conn (pd_step self c))) =
    pd_order_step (PersistentDict.key_builder self)
      (map Sqlite.key (Sqlite.rows (PersistentDict.conn self))) c.
Proof.
  intros Hs. destruct c as [key value skip|key|key|];
    cbn [pd_step pd_order_step].
  - unfold PersistentDict.store.
    destruct (PersistentDict.key_builder self key) as [k|e];
      [|destruct skip; auto].
    destruct skip.
    + destruct (Sqlite.insert (PersistentDict.conn self) k (dumps value))
        as [conn'|e] eqn:Hins.
      * destruct (insert_by_rowid _ _ _ _ Hins Hs) as [Hs' [Hl Hkeys]].
        rewrite Hl. cbn. auto.
      * destruct (insert_refused _ _ _ _ Hins) as [-> Hl].
        rewrite Hl. cbn. auto.
    + cbn [snd PersistentDict.with_conn PersistentDict.conn
           PersistentDict.key_builder].
      split; [reflexivity | split; [apply insert_or_replace_by_rowid; exact Hs|]].
      cbn [Sqlite.insert_or_replace Sqlite.rows].
      rewrite map_app, keys_dropped. reflexivity.
  - unfold PersistentDict.fetch.
    destruct (PersistentDict.key_builder self key) as [k|e]; [|auto].
    destruct (Sqlite.select_value _ _); auto.
  - unfold PersistentDict.remove.
    destruct (PersistentDict.key_builder self key) as [k|e]; [|auto].
    assert (H : forall r : result unit,
               let self' := snd (r, PersistentDict.with_conn self
                                     (Sqlite.delete_where (PersistentDict.conn self) k)) in
               PersistentDict.key_builder self' = PersistentDict.key_builder self /\
               by_rowid (Sqlite.rows (PersistentDict.conn self')) /\
               map Sqlite.key (Sqlite.rows (PersistentDict.conn self')) =
                 dropped k (map Sqlite.key (Sqlite.rows (PersistentDict.conn self)))).
    { intros r. cbn. split; [reflexivity | split; [apply by_rowid_filter; exact Hs|]].
      apply keys_dropped. }
    destruct (_ =? 0); apply H.
  - cbn. split; [reflexivity | split; [constructor | reflexivity]].
Qed.

(** One call on a write-once dictionary. *)
Lemma wo_step_order (self : WriteOncePersistentDict.t V) (c : wo_call V) :
  by_rowid (Sqlite.rows (WriteOncePersistentDict.conn self)) ->
  WriteOncePersistentDict.key_builder (wo_step self c) =
    WriteOncePersistentDict.key_builder self /\
  by_rowid (Sqlite.rows (WriteOncePersistentDict.conn (wo_step self c))) /\
  map Sqlite.key (Sqlite.rows (WriteOncePersistentDict.conn (wo_step self c))) =
    wo_order_step (WriteOncePersistentDict.key_builder self)
      (map Sqlite.key (Sqlite.rows (WriteOncePersistentDict.conn self))) c.
Proof.
  intros Hs. destruct c as [key value skip|key| |];
    cbn [wo_step wo_order_step].
  - unfold WriteOncePersistentDict.store.
    destruct (WriteOncePersistentDict.key_builder self key) as [k|e]; [|auto].
    destruct (Sqlite.insert (WriteOncePersistentDict.conn self) k (dumps value))
      as [conn'|e] eqn:Hins.
    + destruct (insert_by_rowid _ _ _ _ Hins Hs) as [Hs' [Hl Hkeys]].
      rewrite Hl. cbn. auto.
    + destruct (insert_refused _ _ _ _ Hins) as [-> Hl].
      rewrite Hl. destruct skip; cbn; auto.
  - destruct (wo_fetch_keeps self key) as [Hkb Hconn].
    rewrite Hkb, Hconn. auto.
  - cbn. split; [reflexivity | split; [constructor | reflexivity]].
  - cbn. auto.
Qed.

Lemma pd_run_order calls :
  forall self : PersistentDict.t,
    by_rowid (Sqlite.rows (PersistentDict.conn self)) ->
    by_rowid (Sqlite.rows (PersistentDict.conn (pd_run self calls))) /\
    map Sqlite.key (Sqlite.rows (PersistentDict.conn (pd_run self calls))) =
      fold_left (pd_order_step (PersistentDict.key_builder self)) calls
        (map Sqlite.key (Sqlite.rows (PersistentDict.conn self))).
Proof.
  induction calls as [|c calls IH]; intros self Hs; [split; trivial|].
  destruct (pd_step_order self c Hs) as [Hkb [Hs' Hkeys]].
  destruct (IH _ Hs') as [Hs'' Hrun].
  split; [exact Hs''|].
  cbn [fold_left]. rewrite <- Hkeys, <- Hkb. exact Hrun.
Qed.

Lemma wo_run_order calls :
  forall self : WriteOncePersistentDict.t V,
    by_rowid (Sqlite.rows (WriteOncePersistentDict.conn self)) ->
    by_rowid (Sqlite.rows (WriteOncePersistentDict.conn (wo_run self calls))) /\
    map Sqlite.key (Sqlite.rows (WriteOncePersistentDict.conn (wo_run self calls))) =
      fold_left (wo_order_step (WriteOncePersistentDict.key_builder self)) calls
        (map Sqlite.key (Sqlite.rows (WriteOncePersistentDict.conn self))).
Proof.
  induction calls as [|c calls IH]; intros self Hs; [split; trivial|].
  destruct (wo_step_order self c Hs) as [Hkb [Hs' Hkeys]].
  destruct (IH _ Hs') as [Hs'' Hrun].
  split; [exact Hs''|].
  cbn [fold_left]. rewrite <- Hkeys, <- Hkb. exact Hrun.
Qed.

Lemma keys_by_rowid c :
  by_rowid (Sqlite.rows c) -> PersistentDictBase.keys c = map Sqlite.key (Sqlite.rows c).
Proof.
  intros Hs. unfold PersistentDictBase.keys. rewrite (order_by_rowid_kept _ Hs).
  reflexivity.
Qed.

Lemma items_keys_values c :
  map fst (@PersistentDictBase.items V pickle c) = PersistentDictBase.keys c /\
  map snd (@PersistentDictBase.items V pickle c) = PersistentDictBase.values c.
Proof.
  unfold PersistentDictBase.items, PersistentDictBase.keys, PersistentDictBase.values.
  rewrite !map_map. split; reflexivity.
Qed.

(** C9, amended. On a dictionary opened on a table kept by rowid, after
    any calls, [keys] enumerates the digests of the live entries in the
    order of their latest insertions: under the write-once discipline a
    digest is inserted once and stays where it entered, until [clear];
    under the mutable one [store] moves a digest already present to the
    end, [store_if_not_present] leaves it, and [remove] takes it out.
    [items] and [values] follow the same rows, and each of the three runs
    its query anew on every call. *)
Theorem iteration_follows_latest_insertion :
  (forall (self : PersistentDict.t) (calls : list (pd_call V)),
      by_rowid (Sqlite.rows (PersistentDict.conn self)) ->
      let c := PersistentDict.conn (pd_run self calls) in
      PersistentDictBase.keys c =
        fold_left (pd_order_step (PersistentDict.key_builder self)) calls
          (PersistentDictBase.keys (PersistentDict.conn self)) /\
      map fst (@PersistentDictBase.items V pickle c) = PersistentDictBase.keys c /\
      map snd (@PersistentDictBase.items V pickle c) = PersistentDictBase.values c) /\
  (forall (self : WriteOncePersistentDict.t V) (calls : list (wo_call V)),
      by_rowid (Sqlite.rows (WriteOncePersistentDict.conn self)) ->
      let c := WriteOncePersistentDict.conn (wo_run self calls) in
      PersistentDictBase.keys c =
        fold_left (wo_order_step (WriteOncePersistentDict.key_builder self)) calls
          (PersistentDictBase.keys (WriteOncePersistentDict.conn self)) /\
      map fst (@PersistentDictBase.items V pickle c) = PersistentDictBase.keys c /\
      map snd (@PersistentDictBase.items V pickle c) = PersistentDictBase.values c).
Proof.
  split; intros self calls Hs c.
  - destruct (pd_run_order calls self Hs) as [Hs' Hkeys].
    split; [|apply items_keys_values].
    unfold c. rewrite (keys_by_rowid _ Hs'), (keys_by_rowid _ Hs). exact Hkeys.
  - destruct (wo_run_order calls self Hs) as [Hs' Hkeys].
    split; [|apply items_keys_values].
    unfold c. rewrite (keys_by_rowid _ Hs'), (keys_by_rowid _ Hs). exact Hkeys.
Qed.

End Iteration.

(** Calls on the sample dictionaries: under the mutable discipline "a" is
    stored, then "b", then "a" again, and "b" is stored if not present;
    under the write-once discipline "a", then "b", then "a" again. *)
Lemma iteration_follows_latest_insertion_witness :
  PersistentDictBase.keys
    (PersistentDict.conn
       (@pd_run bytes Fnv.pickle Sample.mutable
          [pd_store (PyStr "a") Sample.artifact false;
           pd_store (PyStr "b") Sample.artifact false;
           pd_store (PyStr "a") Sample.other false;
           pd_store (PyStr "b") Sample.other true])) = ["7291fab0"; "ee7191ec"] /\
  PersistentDictBase.keys
    (WriteOncePersistentDict.conn
       (@wo_run bytes Fnv.pickle Sample.write_once
          [wo_store (PyStr "a") Sample.artifact false;
           wo_store (PyStr "b") Sample.artifact false;
           wo_store (PyStr "a") Sample.other false])) = ["ee7191ec"; "7291fab0"].
Proof.
  destruct (@iteration_follows_latest_insertion bytes Fnv.pickle) as [Hpd Hwo].
  split.
  - apply (Hpd Sample.mutable). constructor.
  - apply (Hwo Sample.write_once). constructor.
Defined.

(** C9 as stated fails: the digest of "a" ([ee7191ec]) enters the table
    before that of "b" ([7291fab0]) and is enumerated first, until a second
    [store] under "a" replaces its row; from then on it is enumerated
    last. *)
Lemma iteration_order_counterexample :
  @KeyBuilder.call Fnv.env (PyStr "a") = Ok "ee7191ec" /\
  @KeyBuilder.call Fnv.env (PyStr "b") = Ok "7291fab0" /\
  PersistentDictBase.keys (PersistentDict.conn Sample.after_a) = ["ee7191ec"] /\
  PersistentDictBase.keys (PersistentDict.conn Sample.after_a_b) =
    ["ee7191ec"; "7291fab0"] /\
  PersistentDictBase.keys (PersistentDict.conn Sample.after_a_b_a) =
    ["7291fab0"; "ee7191ec"].
Proof. repeat split; reflexivity. Qed.

(** * More properties of the module *)

(** ** Rows of other keys *)

Section OtherKeys.

Lemma find_filter_other k k' rows :
  k' <> k ->
  find (Sqlite.has_key k') (filter (fun r => negb (Sqlite.has_key k r)) rows) =
  find (Sqlite.has_key k') rows.
Proof.
  intros Hne. unfold Sqlite.has_key.
  induction rows as [|r rows IH]; simpl; [reflexivity|].
  destruct (String.eqb (Sqlite.key r) k) eqn:Ek; simpl.
  - apply String.eqb_eq in Ek.
    destruct (String.eqb (Sqlite.key r) k') eqn:Ek'; [|exact IH].
    apply String.eqb_eq in Ek'. congruence.
  - destruct (String.eqb (Sqlite.key r) k'); [reflexivity | exact IH].
Qed.

Lemma select_replace_other c k v k' :
  k' <> k ->
  Sqlite.select_value (Sqlite.insert_or_replace c k v) k' = Sqlite.select_value c k'.
Proof.
  intros Hne. unfold Sqlite.select_value, Sqlite.insert_or_replace.
  cbn [Sqlite.rows]. rewrite find_app, (find_filter_other _ _ _ Hne).
  destruct (find (Sqlite.has_key k') (Sqlite.rows c)); [reflexivity|].
  simpl. unfold Sqlite.has_key. simpl.
  destruct (String.eqb k k') eqn:E; [|reflexivity].
  apply String.eqb_eq in E. congruence.
Qed.

Lemma select_insert_other c k v c' k' :
  Sqlite.insert c k v = Ok c' -> k' <> k ->
  Sqlite.select_value c' k' = Sqlite.select_value c k'.
Proof.
  intros Hins Hne. destruct (insert_ok _ _ _ _ Hins) as [_ Hrows].
  unfold Sqlite.select_value. rewrite Hrows, find_app.
  destruct (find (Sqlite.has_key k') (Sqlite.rows c)); [reflexivity|].
  simpl. unfold Sqlite.has_key. simpl.
  destruct (String.eqb k k') eqn:E; [|reflexivity].
  apply String.eqb_eq in E. congruence.
Qed.

Lemma select_delete_other c k k' :
  k' <> k ->
  Sqlite.select_value (Sqlite.delete_where c k) k' = Sqlite.select_value c k'.
Proof.
  intros Hne. unfold Sqlite.select_value, Sqlite.delete_where. cbn [Sqlite.rows].
  rewrite (find_filter_other _ _ _ Hne). reflexivity.
Qed.

Lemma delete_present c k b :
  Sqlite.select_value c k = Some b -> Sqlite.changes (Sqlite.delete_where c k) <> 0.
Proof.
  unfold Sqlite.select_value, Sqlite.delete_where. cbn [Sqlite.changes].
  destruct (find (Sqlite.has_key k) (Sqlite.rows c)) as [r|] eqn:E; [|discriminate].
  intros _. apply find_some in E. destruct E as [Hin Hk].
  assert (Hin' : In r (filter (Sqlite.has_key k) (Sqlite.rows c)))
    by (apply filter_In; split; assumption).
  destruct (filter (Sqlite.has_key k) (Sqlite.rows c)); [destruct Hin'|].
  simpl. lia.
Qed.

End OtherKeys.

(** ** [store_if_not_present], [remove], and calls that raise *)

Section MoreDictionaries.
Context {V : Type} {pickle : Pickle V}.

(** Under the mutable discipline, for a key that has a digest:
    [store_if_not_present] of a value [pickle] can serialise returns in
    both cases, on a digest the table holds changing nothing, on one it
    lacks adding a row after the others, and [fetch] then returns the value;
    of a value on which [pickle.dumps] raises it raises the same, whether
    the table holds the digest or not, and changes nothing. *)
Theorem pd_store_if_not_present_keeps_or_inserts (self : PersistentDict.t) key k :
  PersistentDict.key_builder self key = Ok k ->
  (forall value : V,
      match Sqlite.select_value (PersistentDict.conn self) k with
      | Some b =>
          pd_store_object_if_not_present self key (Picklable value) = (Ok tt, self) /\
          PersistentDict.fetch self key = (Ok (loads b : V), self)
      | None =>
          exists self',
            pd_store_object_if_not_present self key (Picklable value) = (Ok tt, self') /\
            PersistentDict.fetch self' key = (Ok value, self') /\
            Sqlite.rows (PersistentDict.conn self') =
              Sqlite.rows (PersistentDict.conn self)
              ++ [{| Sqlite.rowid :=
                       Sqlite.new_rowid (Sqlite.rows (PersistentDict.conn self));
                     Sqlite.key := k; Sqlite.value := dumps value |}]
      end) /\
  (forall e,
      pd_store_object_if_not_present self key (Unpicklable e : pyvalue V) = (Raise e, self)).
Proof.
  intros Hk. split.
  - intros value. unfold pd_store_object_if_not_present.
    rewrite !pd_store_object_picklable.
    unfold PersistentDict.store. rewrite Hk.
    destruct (insert_total (PersistentDict.conn self) k (dumps value)) as [Hnone Hsome].
    destruct (Sqlite.select_value (PersistentDict.conn self) k) as [b|] eqn:Hsel.
    + rewrite Hsome by discriminate.
      split; [reflexivity | exact (pd_fetch_present self key k b Hk Hsel)].
    + destruct (Hnone eq_refl) as [conn' Hins]. rewrite Hins.
      exists (PersistentDict.with_conn self conn').
      split; [reflexivity | split].
      * rewrite (pd_fetch_present _ key k (dumps value));
          [rewrite loads_dumps; reflexivity | exact Hk |].
        exact (select_inserted _ _ _ _ Hins).
      * exact (proj2 (insert_ok _ _ _ _ Hins)).
  - intros e. exact (pd_store_object_unpicklable self key k e true Hk).
Qed.


(** [remove] of a key whose digest the table holds returns; from then on
    [fetch] and a second [remove] raise [NoSuchEntryError], and every other
    digest is read as before. *)
Theorem pd_remove_present (self : PersistentDict.t) key k b :
  PersistentDict.key_builder self key = Ok k ->
  Sqlite.select_value (PersistentDict.conn self) k = Some b ->
  exists self',
    PersistentDict.remove self key = (Ok tt, self') /\
    @PersistentDict.fetch V pickle self' key = (Raise (NoSuchEntryError key), self') /\
    fst (PersistentDict.remove self' key) = Raise (NoSuchEntryError key) /\
    forall k', k' <> k ->
      Sqlite.select_value (PersistentDict.conn self') k' =
      Sqlite.select_value (PersistentDict.conn self) k'.
Proof.
  intros Hk Hsel.
  exists (PersistentDict.with_conn self (Sqlite.delete_where (PersistentDict.conn self) k)).
  assert (Hgone : Sqlite.select_value
                    (PersistentDict.conn
                       (PersistentDict.with_conn self
                          (Sqlite.delete_where (PersistentDict.conn self) k))) k = None)
    by apply select_deleted.
  split; [|split; [|split]].
  - unfold PersistentDict.remove. rewrite Hk.
    pose proof (delete_present _ _ _ Hsel) as Hch.
    apply Z.eqb_neq in Hch. rewrite Hch. reflexivity.
  - apply (pd_fetch_absent _ key k); [exact Hk | exact Hgone].
  - destruct (delete_absent _ _ Hgone) as [_ Hch].
    unfold PersistentDict.remove.
    cbn [PersistentDict.with_conn PersistentDict.key_builder PersistentDict.conn] in *.
    rewrite Hk, Hch. reflexivity.
  - intros k' Hne. apply select_delete_other. exact Hne.
Qed.

(** Under the mutable discipline [store], [store_if_not_present] and
    [remove] on one key leave what [fetch] returns for a key of another
    digest as it was. *)
Theorem pd_other_keys_untouched (self : PersistentDict.t) key k key' k' (value : V) skip :
  PersistentDict.key_builder self key = Ok k ->
  PersistentDict.key_builder self key' = Ok k' ->
  k' <> k ->
  fst (PersistentDict.fetch (snd (PersistentDict.store self key value skip)) key') =
    fst (@PersistentDict.fetch V pickle self key') /\
  fst (PersistentDict.fetch (snd (PersistentDict.remove self key)) key') =
    fst (@PersistentDict.fetch V pickle self key').
Proof.
  intros Hk Hk' Hne.
  assert (Hread : forall self' : PersistentDict.t,
             PersistentDict.key_builder self' = PersistentDict.key_builder self ->
             Sqlite.select_value (PersistentDict.conn self') k' =
               Sqlite.select_value (PersistentDict.conn self) k' ->
             fst (@PersistentDict.fetch V pickle self' key') =
               fst (@PersistentDict.fetch V pickle self key')).
  { intros self' Hkb Hsel. unfold PersistentDict.fetch.
    rewrite Hkb, Hk', Hsel.
    destruct (Sqlite.select_value (PersistentDict.conn self) k'); reflexivity. }
  split; apply Hread.
  - unfold PersistentDict.store. rewrite Hk.
    destruct skip; [|reflexivity].
    destruct (Sqlite.insert _ _ _) as [conn'|[]]; reflexivity.
  - unfold PersistentDict.store. rewrite Hk. destruct skip.
    + destruct (Sqlite.insert (PersistentDict.conn self) k (dumps value))
        as [conn'|e] eqn:Hins.
      * cbn. exact (select_insert_other _ _ _ _ _ Hins Hne).
      * destruct (insert_raises _ _ _ _ Hins) as [-> _]. reflexivity.
    + cbn. apply select_replace_other. exact Hne.
  - unfold PersistentDict.remove. rewrite Hk. destruct (_ =? 0); reflexivity.
  - unfold PersistentDict.remove. rewrite Hk.
    destruct (_ =? 0); cbn; apply select_delete_other; exact Hne.
Qed.

(** A call that raises changes no row: a [store] or a [fetch] that raises
    leaves the dictionary as it was under both disciplines (the cache of the
    write-once one included), and a [remove] that raises leaves the rows as
    they were. *)
Theorem raising_calls_change_nothing :
  (forall (self : PersistentDict.t) key (value : V) skip e,
      fst (PersistentDict.store self key value skip) = Raise e ->
      snd (PersistentDict.store self key value skip) = self) /\
  (forall (self : PersistentDict.t) key,
      snd (@PersistentDict.fetch V pickle self key) = self) /\
  (forall (self : PersistentDict.t) key e,
      fst (PersistentDict.remove self key) = Raise e ->
      Sqlite.rows (PersistentDict.conn (snd (PersistentDict.remove self key))) =
        Sqlite.rows (PersistentDict.conn self)) /\
  (forall (self : WriteOncePersistentDict.t V) key (value : V) skip e,
      fst (WriteOncePersistentDict.store self key value skip) = Raise e ->
      snd (WriteOncePersistentDict.store self key value skip) = self) /\
  (forall (self : WriteOncePersistentDict.t V) key e,
      fst (WriteOncePersistentDict.fetch self key) = Raise e ->
      snd (WriteOncePersistentDict.fetch self key) = self).
Proof.
  split; [|split; [|split; [|split]]].
  - intros self key value skip e. unfold PersistentDict.store.
    destruct (PersistentDict.key_builder self key) as [k|e0]; [|reflexivity].
    destruct skip; [|discriminate].
    destruct (Sqlite.insert _ _ _) as [conn'|[]]; try discriminate; reflexivity.
  - intros self key. unfold PersistentDict.fetch.
    destruct (PersistentDict.key_builder self key) as [k|e0]; [|reflexivity].
    destruct (Sqlite.select_value _ _); reflexivity.
  - intros self key e. unfold PersistentDict.remove.
    destruct (PersistentDict.key_builder self key) as [k|e0]; [|reflexivity].
    destruct (Sqlite.changes (Sqlite.delete_where (PersistentDict.conn self) k) =? 0)
      eqn:Hch; [|discriminate].
    intros _. cbn. apply Z.eqb_eq in Hch.
    unfold Sqlite.delete_where in *. cbn [Sqlite.changes] in Hch.
    assert (Hnone : filter (Sqlite.has_key k) (Sqlite.rows (PersistentDict.conn self)) = [])
      by (destruct (filter _ _); [reflexivity | simpl in Hch; lia]).
    clear Hch. induction (Sqlite.rows (PersistentDict.conn self)) as [|r rows IH];
      simpl in *; [reflexivity|].
    destruct (Sqlite.has_key k r); [discriminate Hnone|].
    simpl. f_equal. exact (IH Hnone).
  - intros self key value skip e.
    pose proof (wo_store_cases self key value skip) as H.
    destruct (WriteOncePersistentDict.key_builder self key) as [k|e0];
      [|rewrite H; reflexivity].
    destruct (Sqlite.select_value _ _); [rewrite H; reflexivity|].
    destruct H as [conn' [_ ->]]. discriminate.
  - intros self key e. unfold WriteOncePersistentDict.fetch.
    destruct (WriteOncePersistentDict.key_builder self key) as [k|e0]; [|reflexivity].
    pose proof (call_raises (WriteOncePersistentDict._fetch self)
                  (WriteOncePersistentDict.fetch_cache self) k) as Hraise.
    destruct (LruCache.call _ _ k) as [[v|e1] cache'] eqn:Hcall; [discriminate|].
    cbn [fst] in Hraise. specialize (Hraise e1 eq_refl).
    injection Hraise as ->.
    intros _. destruct (is_KeyError e1); destruct self; reflexivity.
Qed.

(** Under the write-once discipline [store] looks at the key, then at the
    value, then at the table: what the key builder raises comes first,
    whatever the value; for a key with a digest, what [pickle.dumps] raises
    comes next, whether the table holds the digest or not and also under
    [store_if_not_present]; only a value [pickle] can serialise meets the
    table, where a held digest gives [ReadOnlyEntryError], or nothing under
    [store_if_not_present].  A [store] that raises leaves the dictionary,
    cache included, as it was. *)
Theorem wo_store_raises_in_order (self : WriteOncePersistentDict.t V) key
  (value : pyvalue V) skip :
  (forall e,
      WriteOncePersistentDict.key_builder self key = Raise e ->
      wo_store_object self key value skip = (Raise e, self)) /\
  (forall k e,
      WriteOncePersistentDict.key_builder self key = Ok k ->
      value = Unpicklable e ->
      wo_store_object self key value skip = (Raise e, self)) /\
  (forall k v b,
      WriteOncePersistentDict.key_builder self key = Ok k ->
      value = Picklable v ->
      Sqlite.select_value (WriteOncePersistentDict.conn self) k = Some b ->
      wo_store_object self key value skip =
        (if skip then Ok tt
         else Raise (ReadOnlyEntryError
                       "WriteOncePersistentDict, tried overwriting key"), self)) /\
  (forall e self',
      wo_store_object self key value skip = (Raise e, self') -> self' = self).
Proof.
  split; [|split; [|split]].
  - intros e Hk. unfold wo_store_object. rewrite Hk. reflexivity.
  - intros k e Hk ->. unfold wo_store_object. rewrite Hk. reflexivity.
  - intros k v b Hk -> Hsel. rewrite wo_store_object_picklable.
    pose proof (wo_store_cases self key v skip) as H.
    rewrite Hk, Hsel in H. exact H.
  - intros e self'. destruct value as [v|e'].
    + rewrite wo_store_object_picklable.
      pose proof (wo_store_cases self key v skip) as H.
      destruct (WriteOncePersistentDict.key_builder self key) as [k|e0].
      * destruct (Sqlite.select_value (WriteOncePersistentDict.conn self) k).
        -- rewrite H. intros E. injection E as _ <-. reflexivity.
        -- destruct H as [conn' [_ H]]. rewrite H. discriminate.
      * rewrite H. intros E. injection E as _ <-. reflexivity.
    + unfold wo_store_object.
      destruct (WriteOncePersistentDict.key_builder self key);
        cbn [pickle_dumps]; intros E; injection E as _ <-; reflexivity.
Qed.

End MoreDictionaries.

(** ** [__len__] and the digests of the table *)

Section Counting.
Context {V : Type} {pickle : Pickle V}.

Lemma listed_in k order : listed k order = true <-> In k order.
Proof.
  unfold listed. rewrite existsb_exists. split.
  - intros [k' [Hin Hk]]. apply String.eqb_eq in Hk. subst k'. exact Hin.
  - intros Hin. exists k. split; [exact Hin | apply String.eqb_refl].
Qed.


Lemma dropped_not_in k order : ~ In k (dropped k order).
Proof.
  unfold dropped. intros Hin. apply filter_In in Hin. destruct Hin as [_ Hk].
  rewrite String.eqb_refl in Hk. discriminate Hk.
Qed.



Lemma len_keys c : PersistentDictBase.len c =
  Z.of_nat (List.length (map Sqlite.key (Sqlite.rows c))).
Proof.
  unfold PersistentDictBase.len, Sqlite.count. rewrite length_map. reflexivity.
Qed.

(** One call on a mutable dictionary keeps the digests distinct. *)
Lemma pd_step_unique (self : PersistentDict.t) (c : pd_call V) :
  by_rowid (Sqlite.rows (PersistentDict.conn self)) ->
  unique_keys (Sqlite.rows (PersistentDict.conn self)) ->
  unique_keys (Sqlite.rows (PersistentDict.conn (pd_step self c))).
Proof.
  intros Hs Hu. unfold unique_keys in *.
  destruct (pd_step_order self c Hs) as [_ [_ ->]].
  set (order := map Sqlite.key (Sqlite.rows (PersistentDict.conn self))) in *.
  assert (Hadd : forall k, listed k order = false -> NoDup (order ++ [k])).
  { intros k Hl. apply NoDup_app; [exact Hu | repeat constructor; intros [] |].
    intros a Hin [Ha|[]]. subst a. apply listed_in in Hin. congruence. }
  assert (Hdrop : forall k, NoDup (dropped k order))
    by (intros k; apply NoDup_filter; exact Hu).
  destruct c as [key value [|]|key|key|]; cbn [pd_order_step];
    try destruct (PersistentDict.key_builder self key) as [k|e]; try exact Hu.
  - destruct (listed k order) eqn:Hl; [exact Hu | exact (Hadd k Hl)].
  - apply NoDup_app; [apply Hdrop | repeat constructor; intros [] |].
    intros a Hin [Ha|[]]. subst a. exact (dropped_not_in _ _ Hin).
  - apply Hdrop.
  - constructor.
Qed.

Lemma wo_step_unique (self : WriteOncePersistentDict.t V) (c : wo_call V) :
  by_rowid (Sqlite.rows (WriteOncePersistentDict.conn self)) ->
  unique_keys (Sqlite.rows (WriteOncePersistentDict.conn self)) ->
  unique_keys (Sqlite.rows (WriteOncePersistentDict.conn (wo_step self c))).
Proof.
  intros Hs Hu. unfold unique_keys in *.
  destruct (wo_step_order self c Hs) as [_ [_ ->]].
  set (order := map Sqlite.key (Sqlite.rows (WriteOncePersistentDict.conn self))) in *.
  destruct c as [key value skip|key| |]; cbn [wo_order_step]; try exact Hu.
  - destruct (WriteOncePersistentDict.key_builder self key) as [k|e]; [|exact Hu].
    destruct (listed k order) eqn:Hl; [exact Hu|].
    apply NoDup_app; [exact Hu | repeat constructor; intros [] |].
    intros a Hin [Ha|[]]. subst a. apply listed_in in Hin. congruence.
  - constructor.
Qed.

(** Whatever the calls, a table opened with rows by rowid and distinct
    digests stays so, and [keys] yields no digest twice. *)
Theorem keys_are_distinct :
  (forall (self : PersistentDict.t) (calls : list (pd_call V)),
      by_rowid (Sqlite.rows (PersistentDict.conn self)) ->
      unique_keys (Sqlite.rows (PersistentDict.conn self)) ->
      unique_keys (Sqlite.rows (PersistentDict.conn (pd_run self calls))) /\
      NoDup (PersistentDictBase.keys (PersistentDict.conn (pd_run self calls)))) /\
  (forall (self : WriteOncePersistentDict.t V) (calls : list (wo_call V)),
      by_rowid (Sqlite.rows (WriteOncePersistentDict.conn self)) ->
      unique_keys (Sqlite.rows (WriteOncePersistentDict.conn self)) ->
      unique_keys (Sqlite.rows (WriteOncePersistentDict.conn (wo_run self calls))) /\
      NoDup (PersistentDictBase.keys
               (WriteOncePersistentDict.conn (wo_run self calls)))).
Proof.
  split.
  - intros self calls. revert self.
    induction calls as [|c calls IH]; intros self Hs Hu.
    + cbn [pd_run fold_left].
      split; [exact Hu | rewrite (keys_by_rowid _ Hs); exact Hu].
    + destruct (pd_step_order self c Hs) as [_ [Hs' _]].
      exact (IH (pd_step self c) Hs' (pd_step_unique self c Hs Hu)).
  - intros self calls. revert self.
    induction calls as [|c calls IH]; intros self Hs Hu.
    + cbn [wo_run fold_left].
      split; [exact Hu | rewrite (keys_by_rowid _ Hs); exact Hu].
    + destruct (wo_step_order self c Hs) as [_ [Hs' _]].
      exact (IH (wo_step self c) Hs' (wo_step_unique self c Hs Hu)).
Qed.


End Counting.

(** ** The cache in front of the write-once reads *)

Section Transparency.
Context {V : Type} {pickle : Pickle V}.

Lemma wo_fetch_uncached (self : WriteOncePersistentDict.t V) key :
  wo_coherent self ->
  fst (WriteOncePersistentDict.fetch self key) =
  fst (PersistentDict.fetch (uncached self) key).
Proof.
  intros Hco. unfold PersistentDict.fetch, uncached.
  cbn [PersistentDict.key_builder PersistentDict.conn].
  destruct (WriteOncePersistentDict.key_builder self key) as [k|e] eqn:Hk.
  - destruct (Sqlite.select_value (WriteOncePersistentDict.conn self) k) as [b|] eqn:Hsel.
    + exact (wo_fetch_present self key k b Hco Hk Hsel).
    + rewrite (wo_fetch_absent self key k Hco Hk Hsel). reflexivity.
  - unfold WriteOncePersistentDict.fetch. rewrite Hk. reflexivity.
Qed.

(** The cache of the write-once dictionary is not seen in what [fetch]
    returns: some time after [__init__], [fetch] returns or raises what
    the fetch of a [PersistentDict] on the same table does, before and after
    [clear_in_mem_cache], and neither [fetch] nor [clear_in_mem_cache]
    changes the table. *)
Theorem in_mem_cache_is_transparent (self : WriteOncePersistentDict.t V) key key' :
  wo_reachable self ->
  fst (WriteOncePersistentDict.fetch self key) =
    fst (PersistentDict.fetch (uncached self) key) /\
  fst (WriteOncePersistentDict.fetch
         (WriteOncePersistentDict.clear_in_mem_cache self) key) =
    fst (WriteOncePersistentDict.fetch self key) /\
  fst (WriteOncePersistentDict.fetch
         (snd (WriteOncePersistentDict.fetch self key')) key) =
    fst (WriteOncePersistentDict.fetch self key) /\
  WriteOncePersistentDict.conn (snd (WriteOncePersistentDict.fetch self key')) =
    WriteOncePersistentDict.conn self /\
  WriteOncePersistentDict.conn (WriteOncePersistentDict.clear_in_mem_cache self) =
    WriteOncePersistentDict.conn self.
Proof.
  intros Hreach.
  pose proof (wo_reachable_coherent _ Hreach) as Hco.
  pose proof (wo_reachable_coherent _
                (wo_reachable_run self [wo_clear_in_mem_cache] Hreach)) as Hco1.
  pose proof (wo_reachable_coherent _
                (wo_reachable_run self [wo_fetch key'] Hreach)) as Hco2.
  cbn [wo_run fold_left wo_step] in Hco1, Hco2.
  destruct (wo_fetch_keeps self key') as [Hkb Hconn].
  split; [exact (wo_fetch_uncached self key Hco) | split; [|split; [|split]]].
  - rewrite (wo_fetch_uncached _ key Hco1), (wo_fetch_uncached _ key Hco). reflexivity.
  - rewrite (wo_fetch_uncached _ key Hco2), (wo_fetch_uncached _ key Hco).
    unfold uncached. rewrite Hkb, Hconn. reflexivity.
  - exact Hconn.
  - reflexivity.
Qed.

Lemma length_removelast (A : Type) (l : list A) :
  List.length (removelast l) = pred (List.length l).
Proof.
  induction l as [|x l IH]; [reflexivity|].
  destruct l as [|y l]; [reflexivity|].
  change (removelast (x :: y :: l)) with (x :: removelast (y :: l)).
  change (List.length (x :: removelast (y :: l)))
    with (S (List.length (removelast (y :: l)))).
  rewrite IH. reflexivity.
Qed.

Lemma length_without k (es : list (string * V)) v :
  In (k, v) es -> (List.length (LruCache.without k es) < List.length es)%nat.
Proof.
  unfold LruCache.without.
  induction es as [|[k' v'] es IH]; intros Hin; [destruct Hin|].
  simpl. destruct (String.eqb k' k) eqn:E; simpl.
  - pose proof (filter_length_le (fun e => negb (String.eqb (fst e) k)) es). lia.
  - destruct Hin as [Hin|Hin].
    + injection Hin as -> _. rewrite String.eqb_refl in E. discriminate E.
    + specialize (IH Hin). lia.
Qed.

(** A call through the cache keeps [maxsize] and the bound on the number
    of entries. *)
Lemma call_bounded (f : string -> result V) c k :
  Z.of_nat (List.length (LruCache.entries c)) <= Z.max 0 (LruCache.maxsize c) ->
  LruCache.maxsize (snd (LruCache.call f c k)) = LruCache.maxsize c /\
  Z.of_nat (List.length (LruCache.entries (snd (LruCache.call f c k))))
    <= Z.max 0 (LruCache.maxsize c).
Proof.
  intros Hb. unfold LruCache.call.
  destruct (LruCache.maxsize c <=? 0) eqn:Hsize; [split; [reflexivity | exact Hb]|].
  apply Z.leb_gt in Hsize.
  destruct (LruCache.lookup k (LruCache.entries c)) as [v|] eqn:Hl.
  - cbn. split; [reflexivity|].
    pose proof (length_without k _ v (lookup_in _ _ _ Hl)). lia.
  - destruct (f k) as [v|e]; [|split; [reflexivity | exact Hb]].
    cbn. split; [reflexivity|].
    destruct (Z.of_nat (List.length (LruCache.entries c)) >=? LruCache.maxsize c) eqn:Hfull.
    + apply Z.geb_le in Hfull. simpl List.length. rewrite length_removelast. lia.
    + rewrite Z.geb_leb in Hfull. apply Z.leb_gt in Hfull. simpl List.length. lia.
Qed.

(** The cache never holds more than [in_mem_cache_size] values, and none
    when that size is zero or negative, whatever the calls after
    [__init__]. *)
Theorem in_mem_cache_is_bounded
  (key_builder : pyobj -> result string) rows in_mem_cache_size
  (calls : list (wo_call V)) :
  let self := wo_run (WriteOncePersistentDict.init key_builder rows in_mem_cache_size)
                calls in
  LruCache.maxsize (WriteOncePersistentDict.fetch_cache self) = in_mem_cache_size /\
  Z.of_nat (List.length (LruCache.entries (WriteOncePersistentDict.fetch_cache self)))
    <= Z.max 0 in_mem_cache_size.
Proof.
  intros self. unfold self. clear self.
  assert (Hstep : forall (self : WriteOncePersistentDict.t V) c,
             LruCache.maxsize (WriteOncePersistentDict.fetch_cache self) =
               in_mem_cache_size /\
             Z.of_nat (List.length
                         (LruCache.entries (WriteOncePersistentDict.fetch_cache self)))
               <= Z.max 0 in_mem_cache_size ->
             LruCache.maxsize (WriteOncePersistentDict.fetch_cache (wo_step self c)) =
               in_mem_cache_size /\
             Z.of_nat (List.length
                         (LruCache.entries
                            (WriteOncePersistentDict.fetch_cache (wo_step self c))))
               <= Z.max 0 in_mem_cache_size).
  { intros self c [Hsize Hb]. destruct c as [key value skip|key| |]; cbn [wo_step].
    - destruct (wo_store_keeps self key value skip) as [_ [-> _]]. split; assumption.
    - unfold WriteOncePersistentDict.fetch.
      destruct (WriteOncePersistentDict.key_builder self key) as [k|e];
        [|split; assumption].
      rewrite <- Hsize in Hb.
      pose proof (call_bounded (WriteOncePersistentDict._fetch self) _ k Hb) as Hcall.
      rewrite Hsize in Hcall.
      destruct (LruCache.call _ _ k) as [[v|e] cache']; cbn [snd] in Hcall;
        [exact Hcall|].
      destruct (is_KeyError e); exact Hcall.
    - cbn. split; [exact Hsize | lia].
    - cbn. split; [exact Hsize | lia]. }
  assert (Hinit :
            LruCache.maxsize
              (WriteOncePersistentDict.fetch_cache
                 (@WriteOncePersistentDict.init V key_builder rows in_mem_cache_size)) =
              in_mem_cache_size /\
            Z.of_nat (List.length
                        (LruCache.entries
                           (WriteOncePersistentDict.fetch_cache
                              (@WriteOncePersistentDict.init V key_builder rows
                                 in_mem_cache_size))))
              <= Z.max 0 in_mem_cache_size)
    by (cbn; split; [reflexivity | lia]).
  revert Hinit.
  generalize (@WriteOncePersistentDict.init V key_builder rows in_mem_cache_size).
  induction calls as [|c calls IH]; intros self Hinv; [exact Hinv|].
  exact (IH (wo_step self c) (Hstep self c Hinv)).
Qed.


End Transparency.

(** ** More on the digests of [KeyBuilder] *)

Section MoreDigests.
Context {env : Env}.

Lemma rec_each_raise items e :
  fold_left (fun acc obj_i => h <- acc ;; KeyBuilder.rec h obj_i) items (Raise e) =
  Raise e.
Proof. induction items as [|x items IH]; [reflexivity | exact IH]. Qed.

(** [update_for_tuple] feeds the hash the digests of the elements, one
    after the other, up to the first element that raises. *)
Lemma rec_each_digests items :
  forall key_hash,
    KeyBuilder.rec_each KeyBuilder.rec key_hash items =
    (ds <- KeyBuilder.generate (KeyBuilder.digest_of KeyBuilder.rec) items ;;
     Ok (hash_update key_hash (List.concat ds))).
Proof.
  unfold KeyBuilder.rec_each.
  induction items as [|x items IH]; intros key_hash.
  - cbn. unfold hash_update. rewrite app_nil_r. destruct key_hash; reflexivity.
  - cbn [fold_left KeyBuilder.generate bind]. rewrite rec_unfold.
    destruct (KeyBuilder.digest_of KeyBuilder.rec x) as [d|e]; cbn [bind].
    + rewrite IH.
      destruct (KeyBuilder.generate _ items) as [ds|e]; cbn [bind List.concat];
        [|reflexivity].
      unfold hash_update. cbn [fed]. rewrite app_assoc. reflexivity.
    + apply rec_each_raise.
Qed.

Lemma digest_of_tuple items :
  KeyBuilder.digest_of KeyBuilder.rec (PyTuple items) =
  (ds <- KeyBuilder.generate (KeyBuilder.digest_of KeyBuilder.rec) items ;;
   Ok (sha256 (List.concat ds))).
Proof.
  unfold PyTuple.
  rewrite (digest_of_plain _ _ KeyBuilder.for_tuple) by reflexivity.
  cbn [KeyBuilder.call_updater KeyBuilder.update_for_tuple body_of].
  rewrite rec_each_digests.
  destruct (KeyBuilder.generate _ items); reflexivity.
Qed.

Lemma generate_app (A B : Type) (f : A -> result B) xs ys :
  KeyBuilder.generate f (xs ++ ys) =
  (us <- KeyBuilder.generate f xs ;; vs <- KeyBuilder.generate f ys ;; Ok (us ++ vs)).
Proof.
  induction xs as [|x xs IH]; cbn [app KeyBuilder.generate bind].
  - destruct (KeyBuilder.generate f ys); reflexivity.
  - destruct (f x) as [u|e]; cbn [bind]; [|reflexivity].
    rewrite IH. destruct (KeyBuilder.generate f xs) as [us|e]; cbn [bind]; [|reflexivity].
    destruct (KeyBuilder.generate f ys); reflexivity.
Qed.

Lemma generate_all_ok (A B : Type) (f : A -> result B) xs :
  Forall (fun x => exists y, f x = Ok y) xs ->
  exists ys, KeyBuilder.generate f xs = Ok ys.
Proof.
  induction 1 as [|x xs [y Hy] _ [ys Hys]]; [exists []; reflexivity|].
  exists (y :: ys). cbn [KeyBuilder.generate]. rewrite Hy, Hys. reflexivity.
Qed.

(** The digest of a tuple is the hash of the digests of its elements put
    end to end (that of the empty tuple, the hash of no data); when an
    element has no digest, [__call__] on the tuple raises what [rec] raises
    on the first such element, in the order of the tuple. *)
Theorem tuple_digest_concatenates :
  (forall items ds,
      Forall2 (fun key d => KeyBuilder.digest_of KeyBuilder.rec key = Ok d) items ds ->
      KeyBuilder.call (PyTuple items) = Ok (hex (sha256 (sha256 (List.concat ds))))) /\
  (forall before key after e,
      Forall (fun key' => exists d, KeyBuilder.digest_of KeyBuilder.rec key' = Ok d)
        before ->
      KeyBuilder.digest_of KeyBuilder.rec key = Raise e ->
      KeyBuilder.call (PyTuple (before ++ key :: after)) = Raise e).
Proof.
  split.
  - intros items ds Hall. rewrite call_digest_of, digest_of_tuple.
    assert (Hgen : KeyBuilder.generate (KeyBuilder.digest_of KeyBuilder.rec) items = Ok ds).
    { induction Hall as [|key d items ds Hd _ IH]; [reflexivity|].
      cbn [KeyBuilder.generate]. rewrite Hd, IH. reflexivity. }
    rewrite Hgen. reflexivity.
  - intros before key after e Hbefore Hkey.
    rewrite call_digest_of, digest_of_tuple, generate_app.
    destruct (generate_all_ok _ _ _ _ Hbefore) as [ds ->].
    cbn [bind KeyBuilder.generate]. rewrite Hkey. reflexivity.
Qed.

(** [rec] uses the digest an object carries as it is, whatever the object;
    and for an object that carries the digest [rec] computes without it,
    [rec] returns the same with and without, so that the attribute [rec]
    sets changes no later digest, of the object or of a tuple that holds
    it. *)
Theorem stored_digest_changes_nothing tp hook body d :
  (forall key_hash,
      KeyBuilder.rec key_hash (Obj tp (Some d) hook body) = Ok (hash_update key_hash d)) /\
  (KeyBuilder.digest_of KeyBuilder.rec (Obj tp None hook body) = Ok d ->
   (forall key_hash,
       KeyBuilder.rec key_hash (Obj tp (Some d) hook body) =
       KeyBuilder.rec key_hash (Obj tp None hook body)) /\
   (forall before after,
       KeyBuilder.call (PyTuple (before ++ Obj tp (Some d) hook body :: after)) =
       KeyBuilder.call (PyTuple (before ++ Obj tp None hook body :: after)))).
Proof.
  assert (Hmemo : KeyBuilder.digest_of KeyBuilder.rec (Obj tp (Some d) hook body) = Ok d).
  { unfold KeyBuilder.digest_of. cbn [memo_of].
    destruct (is_type (Obj tp (Some d) hook body)); reflexivity. }
  split.
  - intros key_hash. rewrite rec_unfold, Hmemo. reflexivity.
  - intros Hd. split.
    + intros key_hash. rewrite !rec_unfold, Hmemo, Hd. reflexivity.
    + intros before after.
      rewrite !call_digest_of, !digest_of_tuple, !generate_app.
      cbn [KeyBuilder.generate]. rewrite Hmemo, Hd. reflexivity.
Qed.

Lemma fields_fold flds :
  forall acc,
    fold_left (fun acc obj_i => h <- acc ;; KeyBuilder.rec h obj_i)
      (flat_map (fun fld : string * pyobj => [PyStr (fst fld); snd fld]) flds) acc =
    fold_left (fun acc fld => h <- acc ;;
                 KeyBuilder.rec (KeyBuilder.rec_str h (fst fld)) (snd fld))
      flds acc.
Proof.
  induction flds as [|fld flds IH]; intros acc; [reflexivity|].
  cbn [flat_map app fold_left]. rewrite IH. f_equal.
  destruct acc as [h|e]; reflexivity.
Qed.

(** An instance of a dataclass or of an attrs class has the digest of the
    tuple of the qualified name of its class and of the names and values
    of its fields in their order: [update_for_dataclass] and
    [update_for_attrs] feed the hash what [update_for_tuple] feeds it on
    that tuple. *)
Theorem record_digest_is_tuple_digest tp flds :
  KeyBuilder.select_method tp = Some KeyBuilder.for_dataclass \/
  KeyBuilder.select_method tp = Some KeyBuilder.for_attrs ->
  KeyBuilder.call (Obj tp None None (BFields flds)) =
  KeyBuilder.call (fields_as_tuple tp flds).
Proof.
  intros Hsel. rewrite !call_digest_of. f_equal.
  assert (Hinner :
            KeyBuilder.update_for_fields KeyBuilder.rec new_hash
              (Obj tp None None (BFields flds)) =
            KeyBuilder.update_for_tuple KeyBuilder.rec new_hash (fields_as_tuple tp flds)).
  { unfold KeyBuilder.update_for_fields, KeyBuilder.update_for_tuple, fields_as_tuple,
      PyTuple, KeyBuilder.rec_each.
    cbn [body_of type_of fold_left bind]. rewrite fields_fold. reflexivity. }
  unfold fields_as_tuple, PyTuple.
  rewrite (digest_of_plain (builtin "tuple") _ KeyBuilder.for_tuple) by reflexivity.
  cbn [KeyBuilder.call_updater].
  fold (PyTuple (PyStr (tp_qualname tp ++ "." ++ tp_name tp)%string
                   :: flat_map (fun fld => [PyStr (fst fld); snd fld]) flds)).
  fold (fields_as_tuple tp flds). rewrite <- Hinner.
  destruct Hsel as [Hsel|Hsel];
    rewrite (digest_of_plain _ _ _ Hsel) by reflexivity; reflexivity.
Qed.

(** The updaters feed the hash no mark of the kind of the object: a
    [str], the [bytes] of its encoding, a float whose [hex()] is that text,
    a complex number whose [repr] is, and an enum member whose [str] is, all
    have one digest; so have [None] and ["<None>"], and a [bool] and its
    [str]. *)
Theorem digests_carry_no_kind :
  (forall s,
      KeyBuilder.call (PyBytes (encode s)) = KeyBuilder.call (PyStr s) /\
      KeyBuilder.call (PyFloat s) = KeyBuilder.call (PyStr s) /\
      KeyBuilder.call (PyComplex s) = KeyBuilder.call (PyStr s)) /\
  (forall tp label,
      KeyBuilder.select_method tp = Some KeyBuilder.for_enum ->
      KeyBuilder.call (Obj tp None None (BEnum label)) = KeyBuilder.call (PyStr label)) /\
  KeyBuilder.call PyNone = KeyBuilder.call (PyStr "<None>") /\
  (forall b : bool,
      KeyBuilder.call (PyBool b) = KeyBuilder.call (PyStr (if b then "True" else "False"))).
Proof.
  split; [|split; [|split]].
  - intros s. repeat split; reflexivity.
  - intros tp label Hsel. rewrite !call_digest_of.
    rewrite (digest_of_plain _ _ _ Hsel) by reflexivity. reflexivity.
  - reflexivity.
  - intros b. reflexivity.
Qed.

End MoreDigests.

(** ** Names: the file of a dictionary, the text of a class *)

Section Names.
Context {env : Env}.

Lemma string_length_append (s t : string) :
  String.length (s ++ t)%string = (String.length s + String.length t)%nat.
Proof. induction s as [|c s IH]; cbn; [reflexivity | rewrite IH; reflexivity]. Qed.

Lemma string_append_assoc (s t u : string) :
  ((s ++ t) ++ u)%string = (s ++ t ++ u)%string.
Proof. induction s as [|c s IH]; cbn; [reflexivity | rewrite IH; reflexivity]. Qed.

Lemma append_inv_head (p s t : string) : (p ++ s)%string = (p ++ t)%string -> s = t.
Proof.
  induction p as [|c p IH]; cbn; intros E; [exact E|].
  injection E as E. exact (IH E).
Qed.

Lemma append_inv_tail (s1 : string) :
  forall s2 t, (s1 ++ t)%string = (s2 ++ t)%string -> s1 = s2.
Proof.
  assert (Hlen : forall (s t : string) c,
             t <> String c (s ++ t)%string).
  { intros s t c E. apply (f_equal String.length) in E.
    cbn in E. rewrite string_length_append in E. lia. }
  induction s1 as [|c s1 IH]; intros [|c2 s2] t E; cbn in E.
  - reflexivity.
  - exfalso. exact (Hlen _ _ _ E).
  - exfalso. symmetry in E. exact (Hlen _ _ _ E).
  - injection E as -> E. f_equal. exact (IH _ _ E).
Qed.

(** With one interpreter version, two identifiers give one file name only
    if they are one identifier; the name starts with the mark of the format,
    [pdict-v6-]. *)
Theorem db_name_separates_identifiers identifier1 identifier2 version_info :
  db_name identifier1 version_info = db_name identifier2 version_info ->
  identifier1 = identifier2 /\
  String.prefix "pdict-v6-" (db_name identifier1 version_info) = true.
Proof.
  unfold db_name. intros E. split.
  - apply append_inv_head in E. exact (append_inv_tail _ _ _ E).
  - cbn. destruct (identifier1 ++ _)%string; reflexivity.
Qed.

(** [update_for_type] joins the module, the qualified name and the name of
    a class with dots and no other mark: the class [n] of a module [m.x]
    and the class [n] nested in the class [x] of the module [m] have one
    digest. *)
Theorem class_digest_joins_names (m x n : string) :
  KeyBuilder.call
    (Obj (builtin "type") None None (BClass (m ++ "." ++ x) n n)) =
  KeyBuilder.call
    (Obj (builtin "type") None None (BClass m (x ++ "." ++ n) n)).
Proof.
  assert (Hclass : forall module qualname name,
             KeyBuilder.digest_of KeyBuilder.rec
               (Obj (builtin "type") None None (BClass module qualname name)) =
             Ok (sha256 (encode (module ++ "." ++ qualname ++ "." ++ name)%string)))
    by reflexivity.
  rewrite !call_digest_of, !Hclass. do 4 f_equal.
  rewrite !string_append_assoc. reflexivity.
Qed.

End Names.

(** ** The properties above on the sample dictionaries *)

(** "a" is stored; storing it again if not present changes nothing, and
    storing a lock under it raises. *)
Lemma pd_store_if_not_present_keeps_or_inserts_witness :
  (@pd_store_object_if_not_present bytes Fnv.pickle Sample.after_a (PyStr "a")
     (Picklable Sample.other) = (Ok tt, Sample.after_a) /\
   @PersistentDict.fetch bytes Fnv.pickle Sample.after_a (PyStr "a") =
     (Ok Sample.artifact, Sample.after_a)) /\
  @pd_store_object_if_not_present bytes Fnv.pickle Sample.after_a (PyStr "a") a_lock =
    (Raise (TypeError "cannot pickle '_thread.lock' object"), Sample.after_a).
Proof.
  destruct (@pd_store_if_not_present_keeps_or_inserts bytes Fnv.pickle Sample.after_a
              (PyStr "a") "ee7191ec" eq_refl) as [Hvalue Hlock].
  split; [exact (Hvalue Sample.other) | exact (Hlock _)].
Defined.

(** The artifact is stored under the sample key: a lock as the value
    raises what [pickle.dumps] raises, also under [store_if_not_present];
    another artifact raises [ReadOnlyEntryError]; an instance of [app.Foo]
    as the key raises the key builder's error, whatever the value. *)
Lemma wo_store_raises_in_order_witness :
  @wo_store_object bytes Fnv.pickle stored_and_fetched Sample.key a_lock true =
    (Raise (TypeError "cannot pickle '_thread.lock' object"), stored_and_fetched) /\
  @wo_store_object bytes Fnv.pickle stored_and_fetched Sample.key
    (Picklable Sample.other) false =
    (Raise (ReadOnlyEntryError "WriteOncePersistentDict, tried overwriting key"),
     stored_and_fetched) /\
  @wo_store_object bytes Fnv.pickle stored_and_fetched (Obj app_Foo None None BOpaque)
    a_lock false =
    (Raise (TypeError "unsupported type for persistent hash keying: <class 'app.Foo'>"),
     stored_and_fetched).
Proof.
  split; [|split].
  - apply (proj1 (proj2 (@wo_store_raises_in_order bytes Fnv.pickle stored_and_fetched
                           Sample.key a_lock true)) "7a983e09");
      vm_compute; reflexivity.
  - apply (proj1 (proj2 (proj2 (@wo_store_raises_in_order bytes Fnv.pickle
                                  stored_and_fetched Sample.key
                                  (Picklable Sample.other) false)))
             "7a983e09" Sample.other Sample.artifact);
      vm_compute; reflexivity.
  - apply (proj1 (@wo_store_raises_in_order bytes Fnv.pickle stored_and_fetched
                    (Obj app_Foo None None BOpaque) a_lock false)).
    vm_compute. reflexivity.
Defined.


Lemma pd_remove_present_witness :
  exists self',
    PersistentDict.remove Sample.after_a_b (PyStr "a") = (Ok tt, self') /\
    @PersistentDict.fetch bytes Fnv.pickle self' (PyStr "a") =
      (Raise (NoSuchEntryError (PyStr "a")), self').
Proof.
  destruct (@pd_remove_present bytes Fnv.pickle Sample.after_a_b (PyStr "a")
              "ee7191ec" Sample.artifact eq_refl eq_refl)
    as [self' [Hremove [Hfetch _]]].
  exists self'. split; [exact Hremove | exact Hfetch].
Defined.

Lemma pd_other_keys_untouched_witness :
  fst (@PersistentDict.fetch bytes Fnv.pickle Sample.after_a_b_a (PyStr "b")) =
  fst (@PersistentDict.fetch bytes Fnv.pickle Sample.after_a_b (PyStr "b")).
Proof.
  refine (proj1 (@pd_other_keys_untouched bytes Fnv.pickle Sample.after_a_b
                   (PyStr "a") "ee7191ec" (PyStr "b") "7291fab0" Sample.other false
                   eq_refl eq_refl _)).
  discriminate.
Defined.

Lemma raising_calls_change_nothing_witness :
  snd (@PersistentDict.store bytes Fnv.pickle Sample.after_a
         (Obj app_Foo None None BOpaque) Sample.other false) = Sample.after_a.
Proof.
  exact (proj1 (@raising_calls_change_nothing bytes Fnv.pickle) Sample.after_a
           (Obj app_Foo None None BOpaque) Sample.other false _ eq_refl).
Defined.

Lemma keys_are_distinct_witness :
  NoDup (PersistentDictBase.keys
           (PersistentDict.conn
              (@pd_run bytes Fnv.pickle Sample.mutable
                 [pd_store (PyStr "a") Sample.artifact false;
                  pd_store (PyStr "b") Sample.artifact true;
                  pd_store (PyStr "a") Sample.other false;
                  pd_remove (PyStr "b")]))).
Proof.
  refine (proj2 (proj1 (@keys_are_distinct bytes Fnv.pickle) Sample.mutable _ _ _));
    constructor.
Defined.


Lemma in_mem_cache_is_transparent_witness :
  fst (@WriteOncePersistentDict.fetch bytes Fnv.pickle
         (WriteOncePersistentDict.clear_in_mem_cache stored_and_fetched) Sample.key) =
  fst (@WriteOncePersistentDict.fetch bytes Fnv.pickle stored_and_fetched Sample.key).
Proof.
  refine (proj1 (proj2 (@in_mem_cache_is_transparent bytes Fnv.pickle stored_and_fetched
                          Sample.key Sample.key _))).
  exists (@KeyBuilder.call Fnv.env), [], 256,
    [wo_store Sample.key Sample.artifact false; wo_fetch Sample.key].
  reflexivity.
Defined.


Lemma tuple_digest_concatenates_witness :
  @KeyBuilder.call Fnv.env
    (PyTuple ([PyInt 1] ++ Obj app_Foo None None BOpaque :: [PyStr "x"])) =
    Raise (TypeError "unsupported type for persistent hash keying: <class 'app.Foo'>").
Proof.
  refine (proj2 (@tuple_digest_concatenates Fnv.env) [PyInt 1]
            (Obj app_Foo None None BOpaque) [PyStr "x"] _ _ eq_refl).
  repeat constructor. eexists. reflexivity.
Defined.

Lemma stored_digest_changes_nothing_witness :
  @KeyBuilder.call Fnv.env
    (PyTuple ([PyInt 1] ++ hooked_Foo (Some (@sha256 Fnv.env (encode "foo"))) :: [])) =
  @KeyBuilder.call Fnv.env (PyTuple ([PyInt 1] ++ hooked_Foo None :: [])).
Proof.
  exact (proj2 (proj2 (@stored_digest_changes_nothing Fnv.env app_Foo
                         (Some [inl (encode "foo")]) BOpaque
                         (@sha256 Fnv.env (encode "foo"))) eq_refl)
           [PyInt 1] []).
Defined.

Lemma record_digest_is_tuple_digest_witness :
  @KeyBuilder.call Fnv.env
    (Obj app_Point None None (BFields [("x", PyInt 1); ("y", PyInt 2)])) =
  @KeyBuilder.call Fnv.env
    (PyTuple [PyStr "Point.Point"; PyStr "x"; PyInt 1; PyStr "y"; PyInt 2]).
Proof.
  exact (@record_digest_is_tuple_digest Fnv.env app_Point
           [("x", PyInt 1); ("y", PyInt 2)] (or_introl eq_refl)).
Defined.

Lemma digests_carry_no_kind_witness :
  @KeyBuilder.call Fnv.env (Obj app_Color None None (BEnum "Color.RED")) =
  @KeyBuilder.call Fnv.env (PyStr "Color.RED").
Proof.
  exact (proj1 (proj2 (@digests_carry_no_kind Fnv.env)) app_Color "Color.RED" eq_refl).
Defined.

Lemma db_name_separates_identifiers_witness :
  "cache" = "cache" /\
  String.prefix "pdict-v6-" (db_name "cache" ["3"; "11"; "4"; "final"; "0"]) = true.
Proof.
  exact (@db_name_separates_identifiers "cache" "cache"
           ["3"; "11"; "4"; "final"; "0"] eq_refl).
Defined.

(** ** Iteration and lookup *)

Section ItemsAndFetch.
Context {V : Type} {pickle : Pickle V}.

Lemma find_unique rows r :
  unique_keys rows -> In r rows -> find (Sqlite.has_key (Sqlite.key r)) rows = Some r.
Proof.
  unfold unique_keys. induction rows as [|r0 rows IH]; intros Hu Hin; [destruct Hin|].
  simpl in Hu. inversion Hu as [|? ? Hnot Hu']; subst.
  simpl. unfold Sqlite.has_key at 1.
  destruct Hin as [->|Hin]; [rewrite String.eqb_refl; reflexivity|].
  destruct (String.eqb (Sqlite.key r0) (Sqlite.key r)) eqn:E; [|exact (IH Hu' Hin)].
  apply String.eqb_eq in E. exfalso. apply Hnot. rewrite E.
  apply in_map. exact Hin.
Qed.

Lemma items_select c k (v : V) :
  by_rowid (Sqlite.rows c) -> unique_keys (Sqlite.rows c) ->
  (In (k, v) (PersistentDictBase.items c) <->
   exists b, Sqlite.select_value c k = Some b /\ loads b = v).
Proof.
  intros Hs Hu. unfold PersistentDictBase.items.
  rewrite (order_by_rowid_kept _ Hs), in_map_iff. split.
  - intros [r [Hr Hin]]. injection Hr as <- <-.
    exists (Sqlite.value r). split; [|reflexivity].
    unfold Sqlite.select_value. rewrite (find_unique _ _ Hu Hin). reflexivity.
  - intros [b [Hsel <-]]. unfold Sqlite.select_value in Hsel.
    destruct (find (Sqlite.has_key k) (Sqlite.rows c)) as [r|] eqn:E; [|discriminate Hsel].
    injection Hsel as <-. apply find_some in E. destruct E as [Hin Hk].
    apply String.eqb_eq in Hk. exists r. split; [rewrite Hk; reflexivity | exact Hin].
Qed.

(** On a table of rows by rowid with distinct digests, [items] yields the
    pair of a digest and a value exactly when [fetch], for a key of that
    digest, returns the value, under both disciplines. *)
Theorem items_are_what_fetch_returns :
  (forall (self : PersistentDict.t) key k (v : V),
      by_rowid (Sqlite.rows (PersistentDict.conn self)) ->
      unique_keys (Sqlite.rows (PersistentDict.conn self)) ->
      PersistentDict.key_builder self key = Ok k ->
      (In (k, v) (PersistentDictBase.items (PersistentDict.conn self)) <->
       PersistentDict.fetch self key = (Ok v, self))) /\
  (forall (self : WriteOncePersistentDict.t V) key k (v : V),
      wo_reachable self ->
      by_rowid (Sqlite.rows (WriteOncePersistentDict.conn self)) ->
      unique_keys (Sqlite.rows (WriteOncePersistentDict.conn self)) ->
      WriteOncePersistentDict.key_builder self key = Ok k ->
      (In (k, v) (PersistentDictBase.items (WriteOncePersistentDict.conn self)) <->
       fst (WriteOncePersistentDict.fetch self key) = Ok v)).
Proof.
  split.
  - intros self key k v Hs Hu Hk. rewrite (items_select _ k v Hs Hu).
    unfold PersistentDict.fetch. rewrite Hk.
    destruct (Sqlite.select_value (PersistentDict.conn self) k) as [b|]; split.
    + intros [b' [Hb <-]]. injection Hb as <-. reflexivity.
    + intros H. injection H as <-. exists b. split; reflexivity.
    + intros [b' [Hb _]]. discriminate Hb.
    + discriminate.
  - intros self key k v Hreach Hs Hu Hk. rewrite (items_select _ k v Hs Hu).
    pose proof (wo_reachable_coherent _ Hreach) as Hco.
    destruct (Sqlite.select_value (WriteOncePersistentDict.conn self) k) as [b|] eqn:Hsel;
      [rewrite (wo_fetch_present self key k b Hco Hk Hsel)
      | rewrite (wo_fetch_absent self key k Hco Hk Hsel)]; split.
    + intros [b' [Hb <-]]. injection Hb as <-. reflexivity.
    + cbn [fst]. intros H. injection H as <-. exists b. split; reflexivity.
    + intros [b' [Hb _]]. discriminate Hb.
    + cbn [fst]. discriminate.
Qed.

End ItemsAndFetch.

Lemma items_are_what_fetch_returns_witness :
  @PersistentDict.fetch bytes Fnv.pickle Sample.after_a_b_a (PyStr "b") =
    (Ok Sample.artifact, Sample.after_a_b_a).
Proof.
  refine (proj1 (proj1 (@items_are_what_fetch_returns bytes Fnv.pickle) Sample.after_a_b_a
                   (PyStr "b") "7291fab0" Sample.artifact _ _ _) _).
  - vm_compute. repeat constructor.
  - vm_compute. repeat constructor; simpl; intuition discriminate.
  - vm_compute. reflexivity.
  - vm_compute. left. reflexivity.
Defined.
